(** * Feature-flag evaluation engine (src/src/feature_flags.py)

    A shallow embedding of [FlagConfig] and [FeatureFlagManager]:
    the registry is a finite map from flag names to configurations, the
    audit log a list, and every method is a function that threads the
    manager explicitly.  The clock read by [_log_evaluation] and the draw
    made by [random.randint] are inputs of [is_enabled].

    Strings are sequences of bytes (the UTF-8 encoding of a Python [str]);
    the case and whitespace functions of [_load_from_env] are given on the
    ASCII range. *)

From Stdlib Require Import ZArith List String Ascii DecimalString.
From stdpp Require Import base option list strings gmap fin_maps.

Local Open Scope Z_scope.

(** ** hashlib.md5 (RFC 1321) over bytes given as integers in 0..255 *)

Module Md5.

Definition mask32 : Z := 4294967295.

Definition add32 (x y : Z) : Z := (x + y) mod 2 ^ 32.

Definition not32 (x : Z) : Z := Z.lxor x mask32.

Definition leftrotate (x c : Z) : Z :=
  Z.lor (Z.land (Z.shiftl x c) mask32) (Z.shiftr x (32 - c)).

(** floor(2^32 * abs(sin(i + 1))) for i = 0..63 *)
Definition K : list Z :=
  [ 3614090360; 3905402710; 606105819; 3250441966;
    4118548399; 1200080426; 2821735955; 4249261313;
    1770035416; 2336552879; 4294925233; 2304563134;
    1804603682; 4254626195; 2792965006; 1236535329;
    4129170786; 3225465664; 643717713; 3921069994;
    3593408605; 38016083; 3634488961; 3889429448;
    568446438; 3275163606; 4107603335; 1163531501;
    2850285829; 4243563512; 1735328473; 2368359562;
    4294588738; 2272392833; 1839030562; 4259657740;
    2763975236; 1272893353; 4139469664; 3200236656;
    681279174; 3936430074; 3572445317; 76029189;
    3654602809; 3873151461; 530742520; 3299628645;
    4096336452; 1126891415; 2878612391; 4237533241;
    1700485571; 2399980690; 4293915773; 2240044497;
    1873313359; 4264355552; 2734768916; 1309151649;
    4149444226; 3174756917; 718787259; 3951481745 ].

(** per-round shift amounts *)
Definition shifts : list Z :=
  [ 7; 12; 17; 22; 7; 12; 17; 22; 7; 12; 17; 22; 7; 12; 17; 22;
    5; 9; 14; 20; 5; 9; 14; 20; 5; 9; 14; 20; 5; 9; 14; 20;
    4; 11; 16; 23; 4; 11; 16; 23; 4; 11; 16; 23; 4; 11; 16; 23;
    6; 10; 15; 21; 6; 10; 15; 21; 6; 10; 15; 21; 6; 10; 15; 21 ].

Record state := State { sa : Z; sb : Z; sc : Z; sd : Z }.

Definition init : state :=
  State 1732584193 4023233417 2562383102 271733878.

(** little-endian decoding and encoding of 32-bit words *)
Fixpoint words_of_bytes (bs : list Z) : list Z :=
  match bs with
  | b0 :: b1 :: b2 :: b3 :: rest =>
      (b0 + 256 * b1 + 65536 * b2 + 16777216 * b3) :: words_of_bytes rest
  | _ => []
  end.

Definition bytes_of_word (nbytes : nat) (w : Z) : list Z :=
  map (fun i => Z.land (Z.shiftr w (8 * Z.of_nat i)) 255) (seq 0 nbytes).

(** one of the 64 operations of a block; [i] is the operation index *)
Definition step (M : list Z) (st : state) (i : nat) : state :=
  let '(State A B C D) := st in
  let zi := Z.of_nat i in
  let '(F, g) :=
    if zi <? 16 then (Z.lor (Z.land B C) (Z.land (not32 B) D), zi)
    else if zi <? 32 then
      (Z.lor (Z.land D B) (Z.land (not32 D) C), (5 * zi + 1) mod 16)
    else if zi <? 48 then (Z.lxor B (Z.lxor C D), (3 * zi + 5) mod 16)
    else (Z.lxor C (Z.lor B (not32 D)), (7 * zi) mod 16) in
  let F' := add32 (add32 (add32 F A) (nth i K 0)) (nth (Z.to_nat g) M 0) in
  State D (add32 B (leftrotate F' (nth i shifts 0))) B C.

Definition compress (st : state) (block : list Z) : state :=
  let M := words_of_bytes block in
  let '(State A B C D) := fold_left (step M) (seq 0 64) st in
  State (add32 (sa st) A) (add32 (sb st) B)
        (add32 (sc st) C) (add32 (sd st) D).

(** 0x80, zeros up to 56 mod 64, then the bit length on 8 bytes *)
Definition pad (msg : list Z) : list Z :=
  let len := Z.of_nat (length msg) in
  let zeros := Z.to_nat ((55 - len) mod 64) in
  msg ++ [128] ++ repeat 0 zeros
      ++ bytes_of_word 8 ((8 * len) mod 2 ^ 64).

Fixpoint blocks (n : nat) (bs : list Z) (st : state) : state :=
  match n with
  | O => st
  | S k => blocks k (skipn 64 bs) (compress st (firstn 64 bs))
  end.

Definition digest (msg : list Z) : list Z :=
  let padded := pad msg in
  let '(State A B C D) := blocks (length padded / 64) padded init in
  bytes_of_word 4 A ++ bytes_of_word 4 B
    ++ bytes_of_word 4 C ++ bytes_of_word 4 D.

End Md5.

(** [str.encode()]: the bytes of a string *)
Definition encode (s : string) : list Z :=
  map (fun a => Z.of_N (N_of_ascii a)) (list_ascii_of_string s).

(** [int.from_bytes(bs, byteorder='big')] *)
Definition int_from_bytes_big (bs : list Z) : Z :=
  fold_left (fun acc b => 256 * acc + b) bs 0.

(** ** Python string helpers used by the manager *)

Definition code (a : ascii) : Z := Z.of_N (N_of_ascii a).

(** [str.lower()] on the ASCII range *)
Definition lower_char (a : ascii) : ascii :=
  if (65 <=? code a) && (code a <=? 90)
  then ascii_of_N (N_of_ascii a + 32) else a.

Fixpoint lower (s : string) : string :=
  match s with
  | EmptyString => EmptyString
  | String a rest => String (lower_char a) (lower rest)
  end.

(** the characters [str.strip()] removes, on the ASCII range *)
Definition is_space (a : ascii) : bool :=
  ((9 <=? code a) && (code a <=? 13))
  || ((28 <=? code a) && (code a <=? 32)).

Fixpoint lstrip (s : string) : string :=
  match s with
  | String a rest => if is_space a then lstrip rest else s
  | EmptyString => EmptyString
  end.

Fixpoint rstrip (s : string) : string :=
  match s with
  | EmptyString => EmptyString
  | String a rest =>
      match rstrip rest with
      | EmptyString => if is_space a then EmptyString else String a EmptyString
      | kept => String a kept
      end
  end.

Definition strip (s : string) : string := rstrip (lstrip s).

Definition is_digit_char (a : ascii) : bool :=
  (48 <=? code a) && (code a <=? 57).

Fixpoint all_digits (s : string) : bool :=
  match s with
  | EmptyString => true
  | String a rest => is_digit_char a && all_digits rest
  end.

(** [str.isdigit()]: at least one character, and only digits *)
Definition isdigit (s : string) : bool :=
  match s with
  | EmptyString => false
  | _ => all_digits s
  end.

(** [int(s)] on a string of digits *)
Definition int_of_digits (s : string) : Z :=
  fold_left (fun acc a => 10 * acc + (code a - 48)) (list_ascii_of_string s) 0.

(** [s.startswith(p)] and [s[n:]] *)
Definition startswith (s p : string) : bool := String.prefix p s.

Fixpoint drop_chars (n : nat) (s : string) : string :=
  match n, s with
  | O, _ => s
  | S k, String _ rest => drop_chars k rest
  | S _, EmptyString => EmptyString
  end.

(** [str(z)] for an integer, as an f-string prints it *)
Definition str_of_int (z : Z) : string :=
  NilZero.string_of_int (Z.to_int z).

(** truth value of a string: the empty string is false *)
Definition truthy (s : string) : bool :=
  match s with
  | EmptyString => false
  | String _ _ => true
  end.

(** membership test [x in xs] on a list of strings *)
Definition contains (xs : list string) (x : string) : bool :=
  existsb (String.eqb x) xs.

(** [xs[-n:]] for a positive [n] *)
Definition last_n {A} (n : nat) (xs : list A) : list A :=
  skipn (length xs - n) xs.

(** ** Data model *)

Record FlagConfig := mkFlagConfig {
  name : string;
  enabled : bool;
  rollout_percentage : Z;
  target_users : list string;
  target_segments : list string;
  variant : option string;
  description : string
}.

(** [FlagConfig(name=..., enabled=..., rollout_percentage=..., ...)] with
    the dataclass defaults for the remaining fields *)
Definition FlagConfig_init (n : string) (e : bool) (p : Z)
    (v : option string) (d : string) : FlagConfig :=
  mkFlagConfig n e p [] [] v d.

(** one dictionary of the audit log *)
Module Audit.
Record entry := Entry {
  timestamp : string;
  flag : string;
  user_id : string;
  result : bool;
  reason : string
}.
End Audit.

Record FeatureFlagManager := Manager {
  flags : gmap string FlagConfig;
  audit_log : list Audit.entry
}.

(** what a call reads from outside the manager: [datetime.utcnow()] in
    ISO format, and the value of [random.randint(0, 99)] *)
Record Inputs := mkInputs {
  utcnow : string;
  randint : Z
}.

(** exceptions a method can let escape *)
Inductive exn :=
| KeyError (key : string)
| TypeError (msg : string).

Inductive outcome (A : Type) :=
| Returns (a : A)
| Raises (e : exn).
Arguments Returns {A} a.
Arguments Raises {A} e.

(** ** FeatureFlagManager *)

Definition _load_defaults (self : FeatureFlagManager) : FeatureFlagManager :=
  let add (n : string) (e : bool) (p : Z) (v : option string) (d : string)
          (fl : gmap string FlagConfig) := <[n := FlagConfig_init n e p v d]> fl in
  let fl := flags self in
  let fl := add "aggressive_capture" false 0 None
    "Ask for contact info after first listing detail request (vs waiting for explicit interest)" fl in
  let fl := add "require_both_contacts" false 0 None
    "Require BOTH email AND phone (vs current email OR phone logic)" fl in
  let fl := add "collect_budget_upfront" false 0 None
    "Ask about budget/timeline before showing listings" fl in
  let fl := add "show_risks_upfront" true 100 None
    "Include risk analysis in listing details" fl in
  let fl := add "show_comparables" true 100 None
    "Show comparable sales data in listing details" fl in
  let fl := add "early_advisor_intro" false 0 None
    "Offer advisor connection in Concierge agent (vs only in Booking agent)" fl in
  let fl := add "auto_handoff_after_details" true 100 None
    "Automatically hand off to Booking agent after showing listing details" fl in
  let fl := add "skip_concierge_returning" false 0 None
    "Skip Concierge for users who have previously viewed listings" fl in
  let fl := add "enable_vector_search" true 100 None
    "Use semantic vector search (vs keyword fallback only)" fl in
  let fl := add "show_under_contract" true 100 None
    "Include under-contract listings in search results (for social proof)" fl in
  let fl := add "agent_tone" true 100 (Some "professional"%string)
    "Agent personality variant for A/B testing" fl in
  Manager fl (audit_log self).

(** *** _load_from_file

    The parsed JSON document is a list of (flag name, fields) in the order
    of the file; a field carries a value of the type the dataclass
    declares for it.  [Other] is a key that is no field of [FlagConfig]. *)

Inductive field :=
| Name (s : string)
| Enabled (b : bool)
| RolloutPercentage (z : Z)
| TargetUsers (l : list string)
| TargetSegments (l : list string)
| Variant (v : option string)
| Description (s : string)
| Other (key : string).

(** [setattr(flag, key, value)] *)
Definition setattr (c : FlagConfig) (f : field) : FlagConfig :=
  match f with
  | Name s => mkFlagConfig s (enabled c) (rollout_percentage c)
      (target_users c) (target_segments c) (variant c) (description c)
  | Enabled b => mkFlagConfig (name c) b (rollout_percentage c)
      (target_users c) (target_segments c) (variant c) (description c)
  | RolloutPercentage z => mkFlagConfig (name c) (enabled c) z
      (target_users c) (target_segments c) (variant c) (description c)
  | TargetUsers l => mkFlagConfig (name c) (enabled c) (rollout_percentage c)
      l (target_segments c) (variant c) (description c)
  | TargetSegments l => mkFlagConfig (name c) (enabled c) (rollout_percentage c)
      (target_users c) l (variant c) (description c)
  | Variant v => mkFlagConfig (name c) (enabled c) (rollout_percentage c)
      (target_users c) (target_segments c) v (description c)
  | Description s => mkFlagConfig (name c) (enabled c) (rollout_percentage c)
      (target_users c) (target_segments c) (variant c) s
  | Other _ => c
  end.

(** [FlagConfig(name=name, **data)]: a second [name] or an unknown keyword
    is a TypeError *)
Fixpoint FlagConfig_kwargs (c : FlagConfig) (data : list field)
    : outcome FlagConfig :=
  match data with
  | [] => Returns c
  | Name _ :: _ => Raises (TypeError "got multiple values for keyword argument 'name'")
  | Other _ :: _ => Raises (TypeError "got an unexpected keyword argument")
  | f :: rest => FlagConfig_kwargs (setattr c f) rest
  end.

Definition document := list (string * list field).

(** the loop of [_load_from_file]; an exception leaves the loop and is
    caught, what was stored before it stays *)
Fixpoint load_items (config : document) (fl : gmap string FlagConfig)
    : gmap string FlagConfig :=
  match config with
  | [] => fl
  | (n, data) :: rest =>
      match fl !! n with
      | Some c => load_items rest (<[n := fold_left setattr data c]> fl)
      | None =>
          match FlagConfig_kwargs (FlagConfig_init n false 0 None "") data with
          | Returns c => load_items rest (<[n := c]> fl)
          | Raises _ => fl
          end
      end
  end.

(** what [open] and [json.load] give: a failure, or the document *)
Inductive file_read :=
| Unreadable
| Document (config : document).

Definition _load_from_file (self : FeatureFlagManager) (f : file_read)
    : FeatureFlagManager :=
  match f with
  | Unreadable => self
  | Document config => Manager (load_items config (flags self)) (audit_log self)
  end.

(** *** _load_from_env *)

Definition set_switch (c : FlagConfig) (e : bool) (p : Z) : FlagConfig :=
  mkFlagConfig (name c) e p (target_users c) (target_segments c)
               (variant c) (description c).

(** the body of the loop, for one variable *)
Definition env_entry (fl : gmap string FlagConfig) (kv : string * string)
    : gmap string FlagConfig :=
  let '(key, value) := kv in
  if negb (startswith key "FF_") then fl
  else
    let flag_name := lower (drop_chars 3 key) in
    match fl !! flag_name with
    | None => fl
    | Some c =>
        let value := lower (strip value) in
        if contains ["true"; "1"; "on"]%string value
        then <[flag_name := set_switch c true 100]> fl
        else if contains ["false"; "0"; "off"]%string value
        then <[flag_name := set_switch c false 0]> fl
        else if isdigit value then
          let pct := int_of_digits value in
          if (0 <=? pct) && (pct <=? 100)
          then <[flag_name := set_switch c true pct]> fl
          else fl
        else fl
    end.

Definition _load_from_env (self : FeatureFlagManager)
    (environ : list (string * string)) : FeatureFlagManager :=
  Manager (fold_left env_entry environ (flags self)) (audit_log self).

(** [FeatureFlagManager(config_path)]: [config_file] is [None] when no path
    is given or no file is there *)
Definition __init__ (config_file : option file_read)
    (environ : list (string * string)) : FeatureFlagManager :=
  let self := _load_defaults (Manager ∅ []) in
  let self := match config_file with
              | Some f => _load_from_file self f
              | None => self
              end in
  _load_from_env self environ.

(** *** Evaluation *)

Definition _hash_user (flag_name user_id : string) : Z :=
  let combined := (flag_name ++ ":" ++ user_id)%string in
  let hash_bytes := Md5.digest (encode combined) in
  let hash_int := int_from_bytes_big (firstn 4 hash_bytes) in
  hash_int mod 100.

Definition _log_evaluation (self : FeatureFlagManager) (now : string)
    (flag_name user_id : string) (result : bool) (reason : string)
    : FeatureFlagManager :=
  let log := audit_log self ++ [Audit.Entry now flag_name user_id result reason] in
  Manager (flags self)
          (if (1000 <? length log)%nat then last_n 1000 log else log).

Definition export_audit_log (self : FeatureFlagManager) : list Audit.entry :=
  audit_log self.

(** truth value of [user_id]: [None] and the empty string are false; in
    [is_enabled], [uid] is the string a true [user_id] holds *)
Definition given (user_id : option string) : bool :=
  match user_id with
  | Some u => truthy u
  | None => false
  end.

Definition rollout_reason (p : Z) : string :=
  ("rollout_" ++ str_of_int p ++ "%")%string.

Definition is_enabled (self : FeatureFlagManager) (io : Inputs)
    (flag_name : string) (user_id : option string)
    (context : option (list (string * string)))
    : bool * FeatureFlagManager :=
  match flags self !! flag_name with
  | None => (false, self)
  | Some flag =>
      let uid := default EmptyString user_id in
      if negb (enabled flag) then (false, self)
      else if given user_id && contains (target_users flag) uid
      then (true, _log_evaluation self (utcnow io) flag_name uid true
                    "targeted_user")
      else if rollout_percentage flag =? 100 then (true, self)
      else if rollout_percentage flag =? 0 then (false, self)
      else if given user_id then
        let user_hash := _hash_user flag_name uid in
        let enabled := user_hash <? rollout_percentage flag in
        (enabled, _log_evaluation self (utcnow io) flag_name uid enabled
                    (rollout_reason (rollout_percentage flag)))
      else (randint io <? rollout_percentage flag, self)
  end.

(** [x or default] on an optional string: [None] and the empty string give
    the default *)
Definition or_default (x : option string) (default : string) : string :=
  match x with
  | Some v => if truthy v then v else default
  | None => default
  end.

(** [self.flags[flag_name]], a KeyError when the name is absent *)
Definition getitem (fl : gmap string FlagConfig) (flag_name : string)
    : outcome FlagConfig :=
  match fl !! flag_name with
  | Some c => Returns c
  | None => Raises (KeyError flag_name)
  end.

Definition get_variant (self : FeatureFlagManager) (io : Inputs)
    (flag_name : string) (user_id : option string) (default : string)
    : outcome string * FeatureFlagManager :=
  let '(on, self') := is_enabled self io flag_name user_id None in
  if negb on then (Returns default, self')
  else
    match getitem (flags self') flag_name with
    | Returns flag => (Returns (or_default (variant flag) default), self')
    | Raises e => (Raises e, self')
    end.

Definition update_flag (self : FeatureFlagManager) (flag_name : string)
    (new_enabled : option bool) (new_rollout_percentage : option Z)
    (new_target_users : option (list string)) : FeatureFlagManager :=
  match flags self !! flag_name with
  | None => self
  | Some flag =>
      let flag := match new_enabled with
                  | Some e => setattr flag (Enabled e)
                  | None => flag
                  end in
      let flag := match new_rollout_percentage with
                  | Some p => setattr flag
                                (RolloutPercentage (Z.max 0 (Z.min 100 p)))
                  | None => flag
                  end in
      let flag := match new_target_users with
                  | Some l => setattr flag (TargetUsers l)
                  | None => flag
                  end in
      Manager (<[flag_name := flag]> (flags self)) (audit_log self)
  end.

(** ** Definitions used by the statements *)

(** a disabled flag at 100% that targets the user asking *)
Definition killed_manager : FeatureFlagManager :=
  update_flag (__init__ None []) "agent_tone"
    (Some false) (Some 100) (Some ["vip"%string]).

(** a flag at 0% whose target users include the empty string *)
Definition empty_target_flag : FlagConfig :=
  mkFlagConfig "beta" true 0 [""%string] [] None "".

Definition empty_target_manager : FeatureFlagManager :=
  Manager {[ "beta"%string := empty_target_flag ]} [].

Definition vip_manager : FeatureFlagManager :=
  update_flag (__init__ None []) "collect_budget_upfront"
    (Some true) (Some 0) (Some ["vip_user_1"%string]).

(** a flag at 50% with no target users *)
Definition half_flag : FlagConfig :=
  mkFlagConfig "beta" true 50 [] [] None "".

Definition half_manager : FeatureFlagManager :=
  Manager {[ "beta"%string := half_flag ]} [].

(** the same registry with another percentage for one flag *)
Definition at_rollout (self : FeatureFlagManager) (flag_name : string)
    (flag : FlagConfig) (p : Z) : FeatureFlagManager :=
  Manager (<[flag_name := setattr flag (RolloutPercentage p)]> (flags self))
          (audit_log self).

(** recording one entry, and a sequence of entries, oldest first *)
Definition record (self : FeatureFlagManager) (e : Audit.entry)
    : FeatureFlagManager :=
  _log_evaluation self (Audit.timestamp e) (Audit.flag e) (Audit.user_id e)
                  (Audit.result e) (Audit.reason e).

Definition record_all (self : FeatureFlagManager) (es : list Audit.entry)
    : FeatureFlagManager :=
  fold_left record es self.

(** a call of [is_enabled] with what it reads, and a sequence of calls *)
Record call := Call {
  call_io : Inputs;
  call_flag : string;
  call_user : option string;
  call_context : option (list (string * string))
}.

Definition evaluate_all (self : FeatureFlagManager) (calls : list call)
    : FeatureFlagManager :=
  fold_left (fun m c => snd (is_enabled m (call_io c) (call_flag c)
                               (call_user c) (call_context c)))
            calls self.

(** the entries numbered 0 to n - 1, recorded in that order *)
Definition numbered (n : nat) : list Audit.entry :=
  map (fun i => Audit.Entry (str_of_int (Z.of_nat i)) "agent_tone" "u" true
                            "targeted_user")
      (seq 0 n).

(** when an evaluation of a known flag reaches [_log_evaluation]: the flag
    is on, the user id is a non-empty string, and the user is targeted or
    the percentage is neither 100 nor 0 *)
Definition records_evaluation (flag : FlagConfig) (user_id : option string)
    : bool :=
  enabled flag && given user_id
  && (contains (target_users flag) (default EmptyString user_id)
      || negb (rollout_percentage flag =? 100)
         && negb (rollout_percentage flag =? 0)).

Definition evaluation_reason (flag : FlagConfig) (user_id : option string)
    : string :=
  if contains (target_users flag) (default EmptyString user_id)
  then "targeted_user"%string
  else rollout_reason (rollout_percentage flag).

Definition in_range (fl : gmap string FlagConfig) : Prop :=
  map_Forall (fun _ c => 0 <= rollout_percentage c <= 100) fl.

(** a document that sets a percentage above 100, and an environment that
    does *)
Definition oversized_document : file_read :=
  Document [("aggressive_capture"%string, [RolloutPercentage 150])].

Definition oversized_environ : list (string * string) :=
  [("FF_AGGRESSIVE_CAPTURE", "150")]%string.

(** whether a variable is read as an override of the flag [f] *)
Definition names_flag (f : string) (kv : string * string) : bool :=
  startswith (fst kv) "FF_" && String.eqb (lower (drop_chars 3 (fst kv))) f.

(** the flag of [empty_target_manager], at 50% *)
Definition empty_target_half : FeatureFlagManager :=
  at_rollout empty_target_manager "beta" empty_target_flag 50.

(** ** Sequences of operations on a manager *)

(** a method call on a manager, with what the call reads from outside *)
Inductive operation :=
| CallIsEnabled (io : Inputs) (flag_name : string) (user_id : option string)
                (context : option (list (string * string)))
| CallGetVariant (io : Inputs) (flag_name : string) (user_id : option string)
                 (default : string)
| CallUpdateFlag (flag_name : string) (new_enabled : option bool)
                 (new_rollout_percentage : option Z)
                 (new_target_users : option (list string)).

Definition perform (self : FeatureFlagManager) (o : operation)
    : FeatureFlagManager :=
  match o with
  | CallIsEnabled io f u ctx => snd (is_enabled self io f u ctx)
  | CallGetVariant io f u d => snd (get_variant self io f u d)
  | CallUpdateFlag f e p t => update_flag self f e p t
  end.

Definition perform_all (self : FeatureFlagManager) (os : list operation)
    : FeatureFlagManager :=
  fold_left perform os self.

(** the operations that write the flag [f] *)
Definition writes_flag (f : string) (o : operation) : bool :=
  match o with
  | CallUpdateFlag g _ _ _ => String.eqb g f
  | _ => false
  end.

(** a flag at 50%, then evaluations for other users, a variant lookup and
    an update of another flag *)
Definition busy_operations : list operation :=
  [ CallIsEnabled (mkInputs "t1" 3) "beta" (Some "user_001"%string) None;
    CallGetVariant (mkInputs "t2" 80) "beta" None "control";
    CallUpdateFlag "other" (Some true) (Some 10) None;
    CallIsEnabled (mkInputs "t3" 55) "beta" (Some "user_005"%string) None ].

(** what the audit log holds of an entry: a user id that is not empty, and
    the result true under the reason targeted_user *)
Definition entry_ok (e : Audit.entry) : Prop :=
  Audit.user_id e <> EmptyString
  /\ (Audit.reason e = "targeted_user"%string -> Audit.result e = true).

(** whether a document entry sets the field of the same kind as [f] *)
Definition same_key (f g : field) : bool :=
  match f, g with
  | Name _, Name _ => true
  | Enabled _, Enabled _ => true
  | RolloutPercentage _, RolloutPercentage _ => true
  | TargetUsers _, TargetUsers _ => true
  | TargetSegments _, TargetSegments _ => true
  | Variant _, Variant _ => true
  | Description _, Description _ => true
  | Other j, Other k => String.eqb j k
  | _, _ => false
  end.

Definition sets_key (f : field) (data : list field) : bool :=
  existsb (same_key f) data.

(** a key that [FlagConfig(name=name, **data)] refuses *)
Definition refused_key (f : field) : bool :=
  match f with
  | Name _ | Other _ => true
  | _ => false
  end.

(** a document whose second entry creates a flag with an unknown key *)
Definition broken_document : document :=
  [ ("agent_tone"%string, [Variant (Some "casual"%string)]);
    ("new_flag"%string, [Enabled true; Other "colour"]);
    ("aggressive_capture"%string, [Enabled true; RolloutPercentage 100]) ].

(** ** The module-level manager of feature_flags.py

    [_flag_manager] is [None] until the first access; the manager it then
    holds is the one every later call works on. *)

Module Global.

(** what the first access reads: the file named by FEATURE_FLAGS_CONFIG
    ([None] when the variable is unset or empty, or no file is there) and
    the environment *)
Record Startup := mkStartup {
  config_file : option file_read;
  environ : list (string * string)
}.

(** returns the manager and the new value of [_flag_manager] *)
Definition get_flag_manager (_flag_manager : option FeatureFlagManager)
    (w : Startup) : FeatureFlagManager * option FeatureFlagManager :=
  match _flag_manager with
  | None =>
      let m := __init__ (config_file w) (environ w) in (m, Some m)
  | Some m => (m, Some m)
  end.

(** a call on the manager changes the object [_flag_manager] refers to *)
Definition is_enabled (_flag_manager : option FeatureFlagManager)
    (w : Startup) (io : Inputs) (flag_name : string)
    (user_id : option string) (context : option (list (string * string)))
    : bool * option FeatureFlagManager :=
  let '(m, _) := get_flag_manager _flag_manager w in
  let '(b, m') := is_enabled m io flag_name user_id context in
  (b, Some m').

Definition get_variant (_flag_manager : option FeatureFlagManager)
    (w : Startup) (io : Inputs) (flag_name : string)
    (user_id : option string) (default : string)
    : outcome string * option FeatureFlagManager :=
  let '(m, _) := get_flag_manager _flag_manager w in
  let '(v, m') := get_variant m io flag_name user_id default in
  (v, Some m').

(** [get_flag_manager().update_flag(...)], as demo_flags.py does *)
Definition update_flag (_flag_manager : option FeatureFlagManager)
    (w : Startup) (flag_name : string) (new_enabled : option bool)
    (new_rollout_percentage : option Z)
    (new_target_users : option (list string))
    : option FeatureFlagManager :=
  let '(m, _) := get_flag_manager _flag_manager w in
  Some (update_flag m flag_name new_enabled new_rollout_percentage
                    new_target_users).

End Global.

(** ** graph_with_flags.py: the lead-capture tool and its helpers

    The tool reads the flag require_both_contacts through the module-level
    [is_enabled].  [LISTINGS] (ids with their titles, in the order of the
    dictionary) and [ADVISORS] (ids with the advisor's name) are the
    tables of listings.py; [send_to_airtable] stands for the status
    string the webhook call comes back with.  Lengths count bytes, which
    are the characters of ASCII text, and [re]'s digit class is taken on
    the ASCII range. *)

Module Graph.

(** [needle in haystack] on strings *)
Fixpoint is_infix (needle haystack : string) : bool :=
  String.prefix needle haystack
  || match haystack with
     | EmptyString => false
     | String _ rest => is_infix needle rest
     end.

(** [a in s] for a single character *)
Fixpoint has_char (a : ascii) (s : string) : bool :=
  match s with
  | EmptyString => false
  | String b rest => Ascii.eqb a b || has_char a rest
  end.

(** [s.replace(a, b)] for single characters *)
Fixpoint replace_char (a b : ascii) (s : string) : string :=
  match s with
  | EmptyString => EmptyString
  | String c rest =>
      String (if Ascii.eqb c a then b else c) (replace_char a b rest)
  end.

(** [re.sub(r"\D+", "", s)] on the ASCII range: the digits of [s] *)
Fixpoint digits_only (s : string) : string :=
  match s with
  | EmptyString => EmptyString
  | String c rest =>
      if is_digit_char c then String c (digits_only rest)
      else digits_only rest
  end.

(** [sep.join(parts)] *)
Fixpoint join (sep : string) (parts : list string) : string :=
  match parts with
  | [] => EmptyString
  | [p] => p
  | p :: rest => (p ++ sep ++ join sep rest)%string
  end.

Definition normalize_email (email : string) : string :=
  if negb (truthy email) then EmptyString
  else strip (replace_char "*" "@" email).

Definition normalize_phone (phone : string) : string :=
  if negb (truthy phone) then EmptyString
  else digits_only phone.

Definition has_valid_phone (phone : string) : bool :=
  let digits := normalize_phone phone in
  (7 <=? String.length digits)%nat.

(** a message of the conversation: its text, and the names of its tool
    calls when the message is of a kind that has a [tool_calls] attribute *)
Record Message := mkMessage {
  content : string;
  tool_calls : option (list string)
}.

(** the keys of the conversation state the tools and routes read; a
    scalar key can be missing from the dictionary *)
Record State := mkState {
  messages : list Message;
  buyer_name : option string;
  buyer_email : option string;
  buyer_phone : option string;
  interested_listing : option string;
  user_id : option string
}.

(** [state.get("user_id") if state else None] *)
Definition state_user_id (state : option State) : option string :=
  match state with
  | Some s => user_id s
  | None => None
  end.

(** [xs[-k]] for k = 1, 2, ...: an IndexError is [None] *)
Definition from_end {A} (k : nat) (xs : list A) : option A :=
  nth_error (rev xs) (k - 1).

(** [s.split("\n")] *)
Fixpoint split_lines (s : string) : list string :=
  match s with
  | EmptyString => [EmptyString]
  | String c rest =>
      if Ascii.eqb c "010" then EmptyString :: split_lines rest
      else match split_lines rest with
           | l :: ls => String c l :: ls
           | [] => [String c EmptyString]
           end
  end.

(** the loop of [list_all_listings]: once a line holds the marker, that
    line and all later ones are skipped *)
Fixpoint keep_lines (lines : list string) (skip_section : bool)
    : list string :=
  match lines with
  | [] => []
  | line :: rest =>
      let skip_section := skip_section || is_infix "UNDER CONTRACT:" line in
      if skip_section then keep_lines rest skip_section
      else line :: keep_lines rest skip_section
  end.

(** [summary] is what [get_listings_summary()] returns *)
Definition list_all_listings (_flag_manager : option FeatureFlagManager)
    (w : Global.Startup) (io : Inputs) (summary : string)
    (state : option State) : string * option FeatureFlagManager :=
  let user_id := state_user_id state in
  let '(on, g) :=
    Global.is_enabled _flag_manager w io "show_under_contract" user_id None in
  if on then (summary, g)
  else
    let lines := split_lines summary in
    let filtered := keep_lines lines false in
    (join (String "010" EmptyString) filtered, g).

(** where [route_after_concierge_tools] sends the conversation *)
Inductive node :=
| concierge_agent
| listing_booking_agent.

Inductive routed :=
| Goto (n : node)
| IndexError.

Definition route_after_concierge_tools
    (_flag_manager : option FeatureFlagManager) (w : Global.Startup)
    (io : Inputs) (state : State) : routed * option FeatureFlagManager :=
  match from_end 1 (messages state) with
  | None => (IndexError, _flag_manager)
  | Some last =>
      if is_infix "HANDOFF_LISTING:" (content last)
      then (Goto listing_booking_agent, _flag_manager)
      else
        let uid := Some (default EmptyString (user_id state)) in
        let '(on, g) :=
          Global.is_enabled _flag_manager w io "auto_handoff_after_details"
                            uid None in
        if on then
          match from_end 2 (messages state) with
          | None => (IndexError, g)
          | Some previous =>
              match tool_calls previous with
              | Some calls =>
                  if contains calls "get_listing_details"
                  then (Goto listing_booking_agent, g)
                  else (Goto concierge_agent, g)
              | None => (Goto concierge_agent, g)
              end
          end
        else (Goto concierge_agent, g)
  end.

(** the dictionary sent to the webhook *)
Module Payload.
Record t := Make {
  name : string;
  email : string;
  phone : string;
  listing_id : string;
  contact_preference : string;
  preferences : string;
  advisor : string;
  status : string
}.
End Payload.

(** the fields the tool asks for when it cannot submit *)
Definition missing_fields (require_both has_name has_email has_phone : bool)
    : list string :=
  (if negb has_name then ["your name"%string] else [])
  ++ (if require_both then
        (if negb has_email then ["your email"%string] else [])
        ++ (if negb has_phone then ["your phone number"%string] else [])
      else
        if negb (has_email || has_phone)
        then ["your email or phone number"%string] else []).

(** the three tests of [capture_contact_info], on the arguments as given *)
Definition lead_has_name (buyer_name : string) : bool :=
  (1 <? String.length (strip buyer_name))%nat.

Definition lead_has_email (buyer_email : string) : bool :=
  has_char "@" (normalize_email buyer_email).

Definition lead_has_phone (buyer_phone : string) : bool :=
  has_valid_phone (normalize_phone buyer_phone).

Section Tools.

Variable LISTINGS : list (string * string).
Variable ADVISORS : gmap string string.
Variable send_to_airtable : Payload.t -> string.

(** the loop of [resolve_listing_id] over the titles *)
Fixpoint first_title_match (input_str : string)
    (items : list (string * string)) : option string :=
  match items with
  | [] => None
  | (lid, title) :: rest =>
      if is_infix (lower input_str) (lower title) then Some lid
      else first_title_match input_str rest
  end.

Definition resolve_listing_id (input_str : string) : option string :=
  let input_str := strip input_str in
  if contains (map fst LISTINGS) input_str then Some input_str
  else first_title_match input_str LISTINGS.

(** [resolve_listing_id(listing_id) or listing_id] *)
Definition real_listing_id (listing_id : string) : string :=
  match resolve_listing_id listing_id with
  | Some lid => if truthy lid then lid else listing_id
  | None => listing_id
  end.

Definition handoff_to_listing_agent (listing_id : string) : string :=
  ("HANDOFF_LISTING:" ++ real_listing_id listing_id)%string.

(** what a call of the tool gives: the reply to the agent, the payload
    posted to the webhook if any, and the module-level manager *)
Record Captured := mkCaptured {
  reply : string;
  sent : option Payload.t;
  manager : option FeatureFlagManager
}.

Definition capture_contact_info
    (_flag_manager : option FeatureFlagManager) (w : Global.Startup)
    (io : Inputs)
    (listing_id buyer_name buyer_email buyer_phone : string)
    (contact_preference preferences : string) (state : option State)
    : Captured :=
  let buyer_email := normalize_email buyer_email in
  let buyer_phone_clean := normalize_phone buyer_phone in
  let real_id := real_listing_id listing_id in
  let advisor_name := default "Baton Advisor"%string (ADVISORS !! real_id) in
  let has_name := (1 <? String.length (strip buyer_name))%nat in
  let has_email := has_char "@" buyer_email in
  let has_phone := has_valid_phone buyer_phone_clean in
  let user_id := state_user_id state in
  let '(require_both, g) :=
    Global.is_enabled _flag_manager w io "require_both_contacts" user_id None in
  let can_submit :=
    if require_both then has_name && has_email && has_phone
    else has_name && (has_email || has_phone) in
  if can_submit then
    let payload :=
      Payload.Make (strip buyer_name)
        (if has_email then strip buyer_email else EmptyString)
        (if has_phone then strip buyer_phone_clean else EmptyString)
        real_id
        (if truthy contact_preference then strip contact_preference
         else "pending"%string)
        (if truthy preferences then strip preferences else EmptyString)
        advisor_name "new_lead" in
    let status_msg := send_to_airtable payload in
    mkCaptured (status_msg ++ " Advisor " ++ advisor_name
                ++ " has been notified.")%string
               (Some payload) g
  else
    let missing := missing_fields require_both has_name has_email has_phone in
    mkCaptured ("I've captured some info, but I still need "
                ++ join " and " missing
                ++ " to submit this to the advisor.")%string
               None g.

End Tools.

(** the ids and titles of listings.py, in its order, and its advisors *)
Definition LISTINGS : list (string * string) :=
  [ ("453e1744", "Established Festival & Talent Booking Business");
    ("d46b4e3f", "Luxury General Contractor – Resort Region, Class A License");
    ("dd1ac28d", "Scalable SaaS HR & Wellness Platform with 85% User Engagement");
    ("8cf95905", "Specialized Pharma Market Research Firm with Global Client Base");
    ("0f6d8f18", "Established Midwest Cabinet Wholesaler With Strong B2B Base");
    ("1e9ce105", "Passive-Income Logistics Company w/ Owned Terminal & 130+ Trucks");
    ("091784a5", "Remote US Tax & Bookkeeping Firm") ]%string.

Definition ADVISORS : gmap string string :=
  list_to_map
    [ ("453e1744", "Fahad Salman"); ("dd1ac28d", "Fahad Salman");
      ("091784a5", "Fahad Salman"); ("d46b4e3f", "Reid Kleinman");
      ("1e9ce105", "Reid Kleinman"); ("8cf95905", "Ani Thakur");
      ("0f6d8f18", "Serena Lee") ]%string.

End Graph.

(** ** Further definitions used by the statements *)

(** the fields [_load_from_env] never writes *)
Definition same_but_switch (c c' : FlagConfig) : Prop :=
  name c' = name c /\ target_users c' = target_users c
  /\ target_segments c' = target_segments c /\ variant c' = variant c
  /\ description c' = description c.

(** a summary with both sections, as [get_listings_summary] lays it out *)
Definition two_section_summary : string :=
  "AVAILABLE LISTINGS:

FOR SALE:
• Remote US Tax & Bookkeeping Firm... ($1.2M) - Remote - 3.1X

UNDER CONTRACT:
• Luxury General Contractor... ($4.5M) - CO - 2.9X".

(** a conversation that ends with the tool's answer for a listing named by
    a word of its title *)
Definition handoff_state : Graph.State :=
  Graph.mkState
    [ Graph.mkMessage "show me the tax firm" None;
      Graph.mkMessage "" (Some ["handoff_to_listing_agent"%string]);
      Graph.mkMessage (Graph.handoff_to_listing_agent Graph.LISTINGS "tax")
                      None ]
    None None None None (Some "session_1"%string).

(** the listing details were just shown to an identified user *)
Definition details_state : Graph.State :=
  Graph.mkState
    [ Graph.mkMessage "tell me about 091784a5" None;
      Graph.mkMessage "" (Some ["get_listing_details"%string]);
      Graph.mkMessage "**Remote US Tax & Bookkeeping Firm** (ID: 091784a5)"
                      None ]
    None None None None (Some "session_1"%string).

Definition single_message_state : Graph.State :=
  Graph.mkState [Graph.mkMessage "hello" None] None None None None None.

(** * Properties *)

(** ** The model on known values *)

Example md5_empty :
  Md5.digest (encode "") =
  [212; 29; 140; 217; 143; 0; 178; 4; 233; 128; 9; 152; 236; 248; 66; 126].
Proof. vm_compute. reflexivity. Qed.

Example md5_abc :
  Md5.digest (encode "abc") =
  [144; 1; 80; 152; 60; 210; 79; 176; 214; 150; 63; 125; 40; 225; 127; 114].
Proof. vm_compute. reflexivity. Qed.

(** messages of 56, 64 and 70 bytes: the padding opens a second block *)
Example md5_longer :
  (Md5.digest (repeat 98 56), Md5.digest (repeat 99 64),
   Md5.digest (repeat 97 70))
  = ([185; 217; 85; 105; 108; 118; 84; 205; 32; 8; 107; 236; 49; 103; 11; 17],
     [188; 213; 112; 142; 215; 155; 24; 240; 240; 170; 162; 127; 208; 5; 109; 134],
     [15; 92; 108; 78; 116; 11; 252; 192; 140; 60; 38; 204; 178; 103; 61; 70]).
Proof. vm_compute. reflexivity. Qed.

Example strip_lower_ex : lower (strip "  TrUe
") = "true"%string.
Proof. reflexivity. Qed.

Example str_of_int_ex :
  (str_of_int 0, str_of_int 37, str_of_int (-5)) = ("0", "37", "-5")%string.
Proof. reflexivity. Qed.

Example int_of_digits_ex : int_of_digits "0150" = 150.
Proof. reflexivity. Qed.

(** the spec's end-to-end scenarios, run on the model *)
Example scenario_A :
  fst (is_enabled (__init__ None []) (mkInputs "t" 0)
                  "aggressive_capture" (Some "u1"%string) None) = false.
Proof. vm_compute. reflexivity. Qed.

Example hash_user_ex :
  (_hash_user "agent_tone" "user_005", _hash_user "aggressive_capture" "user_1",
   _hash_user "" "") = (98, 88, 79).
Proof. vm_compute. reflexivity. Qed.

Example scenario_C :
  let m := update_flag (__init__ None []) "collect_budget_upfront"
             (Some true) (Some 0) (Some ["vip_user_1"%string]) in
  (fst (is_enabled m (mkInputs "t" 0) "collect_budget_upfront"
          (Some "vip_user_1"%string) None),
   fst (is_enabled m (mkInputs "t" 0) "collect_budget_upfront"
          (Some "regular_user"%string) None)) = (true, false).
Proof. vm_compute. reflexivity. Qed.

Example scenario_D :
  fst (is_enabled (__init__ None [("FF_SHOW_RISKS_UPFRONT", "false")]%string)
         (mkInputs "t" 0) "show_risks_upfront" (Some "any"%string) None) = false.
Proof. vm_compute. reflexivity. Qed.

Example env_precedence_ex :
  let after v := flags (__init__ None [("FF_AGGRESSIVE_CAPTURE"%string, v)])
                   !! "aggressive_capture"%string in
  ((fun c => (enabled c, rollout_percentage c)) <$> after "1"%string,
   (fun c => (enabled c, rollout_percentage c)) <$> after "01"%string,
   (fun c => (enabled c, rollout_percentage c)) <$> after "00"%string,
   (fun c => (enabled c, rollout_percentage c)) <$> after " On "%string,
   (fun c => (enabled c, rollout_percentage c)) <$> after "101"%string)
  = (Some (true, 100), Some (true, 1), Some (true, 0), Some (true, 100),
     Some (false, 0)).
Proof. vm_compute. reflexivity. Qed.

(** ** Helper lemmas *)

Lemma contains_In (xs : list string) (x : string) :
  contains xs x = true <-> In x xs.
Proof.
  unfold contains. rewrite existsb_exists. split.
  - intros (y & Hy & He). apply String.eqb_eq in He. now subst.
  - intros Hx. exists x. split; [assumption | apply String.eqb_refl].
Qed.

Lemma contains_not_In (xs : list string) (x : string) :
  contains xs x = false <-> ~ In x xs.
Proof.
  rewrite <- contains_In. destruct (contains xs x); split; congruence.
Qed.

Lemma flags_log_evaluation self now f u b r :
  flags (_log_evaluation self now f u b r) = flags self.
Proof. reflexivity. Qed.

(** evaluation reads the registry and never writes it *)
Lemma is_enabled_flags self io f u ctx :
  flags (snd (is_enabled self io f u ctx)) = flags self.
Proof.
  unfold is_enabled. destruct (flags self !! f) as [c|]; [|reflexivity].
  repeat match goal with
         | |- context [if ?b then _ else _] => destruct b
         end; reflexivity.
Qed.

Ltac split_ifs :=
  repeat match goal with
         | |- context [if ?b then _ else _] => destruct b eqn:?
         end.

(** ** Kill switch *)

(** C1. A flag of the registry whose [enabled] field is false evaluates to
    false for every user id, absent or not, and every context, whatever
    its target users and rollout percentage are. *)
Theorem kill_switch_absolute_precedence
    (self : FeatureFlagManager) (io : Inputs) (flag_name : string)
    (flag : FlagConfig) (user_id : option string)
    (context : option (list (string * string))) :
  flags self !! flag_name = Some flag ->
  enabled flag = false ->
  fst (is_enabled self io flag_name user_id context) = false.
Proof.
  intros Hf He. unfold is_enabled. rewrite Hf, He. reflexivity.
Qed.

Lemma kill_switch_absolute_precedence_witness :
  flags killed_manager !! "agent_tone"%string
    = Some (mkFlagConfig "agent_tone" false 100 ["vip"%string] []
              (Some "professional"%string)
              "Agent personality variant for A/B testing")
  /\ fst (is_enabled killed_manager (mkInputs "2026-01-01T00:00:00" 0)
            "agent_tone" (Some "vip"%string) None) = false.
Proof.
  split; [vm_compute; reflexivity |].
  eapply kill_switch_absolute_precedence; vm_compute; reflexivity.
Defined.

(** ** Targeting *)

(** C2, as stated, fails for the empty user id: [if user_id and ...]
    skips the membership test, and at 0% the flag is off. *)
Lemma targeting_empty_user_id_counterexample :
  flags empty_target_manager !! "beta"%string = Some empty_target_flag
  /\ enabled empty_target_flag = true
  /\ In ""%string (target_users empty_target_flag)
  /\ fst (is_enabled empty_target_manager (mkInputs "t" 0) "beta"
            (Some ""%string) None) = false.
Proof. vm_compute. repeat split; auto. Qed.

(** C2 (amended). For a flag with [enabled] true and a non-empty user id
    that is a member of its target users, [is_enabled] returns true, at
    any rollout percentage. *)
Theorem targeting_overrides_rollout
    (self : FeatureFlagManager) (io : Inputs) (flag_name : string)
    (flag : FlagConfig) (u : string)
    (context : option (list (string * string))) :
  flags self !! flag_name = Some flag ->
  enabled flag = true ->
  u <> EmptyString ->
  In u (target_users flag) ->
  fst (is_enabled self io flag_name (Some u) context) = true.
Proof.
  intros Hf He Hu Hin. unfold is_enabled. rewrite Hf, He. simpl.
  apply contains_In in Hin. rewrite Hin.
  destruct u; [congruence | reflexivity].
Qed.

Lemma targeting_overrides_rollout_witness :
  fst (is_enabled vip_manager (mkInputs "t" 0) "collect_budget_upfront"
         (Some "vip_user_1"%string) None) = true.
Proof.
  eapply (targeting_overrides_rollout vip_manager _ _
            (mkFlagConfig "collect_budget_upfront" true 0
               ["vip_user_1"%string] [] None
               "Ask about budget/timeline before showing listings")).
  - vm_compute. reflexivity.
  - reflexivity.
  - discriminate.
  - simpl. auto.
Defined.

(** ** Percentage rollout *)

Lemma hash_user_range (f u : string) : 0 <= _hash_user f u < 100.
Proof. unfold _hash_user. apply Z.mod_pos_bound. lia. Qed.

(** the result of the hash branch, for a user id that is given and not
    targeted, at a percentage that is neither 0 nor 100 *)
Lemma is_enabled_hash_branch self io f flag u ctx :
  flags self !! f = Some flag ->
  enabled flag = true ->
  u <> EmptyString ->
  ~ In u (target_users flag) ->
  rollout_percentage flag <> 100 ->
  rollout_percentage flag <> 0 ->
  is_enabled self io f (Some u) ctx
  = (_hash_user f u <? rollout_percentage flag,
     _log_evaluation self (utcnow io) f u
       (_hash_user f u <? rollout_percentage flag)
       (rollout_reason (rollout_percentage flag))).
Proof.
  intros Hf He Hu Hin H100 H0. unfold is_enabled. rewrite Hf, He. simpl.
  apply contains_not_In in Hin. rewrite Hin, andb_false_r.
  apply Z.eqb_neq in H100, H0. rewrite H100, H0.
  destruct u; [congruence | reflexivity].
Qed.

(** C3, as stated, fails for the empty user id: it is not in the target
    users and its bucket is 99, so the claim gives false at 50%, but the
    code takes the random draw, here 7, and returns true. *)
Lemma hash_bucketing_empty_user_id_counterexample :
  flags half_manager !! "beta"%string = Some half_flag
  /\ enabled half_flag = true
  /\ 0 < rollout_percentage half_flag < 100
  /\ ~ In ""%string (target_users half_flag)
  /\ fst (is_enabled half_manager (mkInputs "t" 7) "beta" (Some ""%string) None)
     <> (_hash_user "beta" "" <? rollout_percentage half_flag).
Proof.
  repeat split; vm_compute; congruence.
Qed.

(** C3 (amended). For a flag with [enabled] true, a rollout percentage p
    with 0 < p < 100 and a non-empty user id u outside the target users,
    [is_enabled f u] is [bucket f u < p], where the bucket is the first
    four bytes of the MD5 digest of f ++ ":" ++ u read as a big-endian
    integer, modulo 100; the bucket depends on the two strings only and
    lies in 0..99, and a second call, whatever the clock and the random
    draw, returns the same boolean. *)
Theorem deterministic_hash_bucketing
    (self : FeatureFlagManager) (io io' : Inputs) (flag_name : string)
    (flag : FlagConfig) (u : string)
    (context context' : option (list (string * string))) :
  flags self !! flag_name = Some flag ->
  enabled flag = true ->
  0 < rollout_percentage flag < 100 ->
  u <> EmptyString ->
  ~ In u (target_users flag) ->
  let first := is_enabled self io flag_name (Some u) context in
  let second := is_enabled (snd first) io' flag_name (Some u) context' in
  fst first = (_hash_user flag_name u <? rollout_percentage flag)
  /\ _hash_user flag_name u
     = int_from_bytes_big
         (firstn 4 (Md5.digest (encode (flag_name ++ ":" ++ u)%string)))
       mod 100
  /\ 0 <= _hash_user flag_name u < 100
  /\ fst second = fst first.
Proof.
  intros Hf He Hp Hu Hin first second.
  assert (Hfirst : first = (_hash_user flag_name u <? rollout_percentage flag,
     _log_evaluation self (utcnow io) flag_name u
       (_hash_user flag_name u <? rollout_percentage flag)
       (rollout_reason (rollout_percentage flag)))).
  { apply is_enabled_hash_branch; auto; lia. }
  repeat split.
  - rewrite Hfirst. reflexivity.
  - apply hash_user_range.
  - apply hash_user_range.
  - subst second. rewrite Hfirst. simpl.
    erewrite is_enabled_hash_branch; eauto; lia.
Qed.

Lemma deterministic_hash_bucketing_witness :
  fst (is_enabled half_manager (mkInputs "t" 7) "beta"
         (Some "user_005"%string) None)
  = (_hash_user "beta" "user_005" <? 50).
Proof.
  apply (deterministic_hash_bucketing half_manager (mkInputs "t" 7)
           (mkInputs "t2" 93) "beta" half_flag "user_005" None None).
  - vm_compute. reflexivity.
  - reflexivity.
  - simpl. lia.
  - discriminate.
  - simpl. tauto.
Defined.

(** ** Monotonicity *)

(** C4, as stated, fails for the empty user id: each call makes its own
    draw, so the flag is on at 10% with the draw 5 and off at 50% with
    the draw 70. *)
Lemma monotonicity_empty_user_id_counterexample :
  enabled half_flag = true
  /\ ~ In ""%string (target_users half_flag)
  /\ 10 < 50 <= 100
  /\ fst (is_enabled (at_rollout half_manager "beta" half_flag 10)
            (mkInputs "t" 5) "beta" (Some ""%string) None) = true
  /\ fst (is_enabled (at_rollout half_manager "beta" half_flag 50)
            (mkInputs "t" 70) "beta" (Some ""%string) None) = false.
Proof. repeat split; vm_compute; congruence. Qed.

(** C4 (amended). For a flag with [enabled] true and a non-empty user id
    outside its target users: if [is_enabled] returns true at the
    percentage p1 and p1 < p2 <= 100, it returns true at p2, the other
    fields being the same. *)
Theorem monotonicity_under_rollout_increase
    (self : FeatureFlagManager) (io1 io2 : Inputs) (flag_name : string)
    (flag : FlagConfig) (u : string) (p1 p2 : Z)
    (context : option (list (string * string))) :
  enabled flag = true ->
  u <> EmptyString ->
  ~ In u (target_users flag) ->
  p1 < p2 <= 100 ->
  fst (is_enabled (at_rollout self flag_name flag p1) io1 flag_name
         (Some u) context) = true ->
  fst (is_enabled (at_rollout self flag_name flag p2) io2 flag_name
         (Some u) context) = true.
Proof.
  intros He Hu Hin Hp. unfold is_enabled, at_rollout. simpl.
  rewrite !lookup_insert_eq. simpl. rewrite He. simpl.
  apply contains_not_In in Hin. rewrite Hin, andb_false_r.
  destruct u as [|a u']; [congruence|]. simpl.
  destruct (Z.eqb_spec p1 100); [lia|].
  destruct (Z.eqb_spec p1 0); [discriminate|].
  destruct (Z.eqb_spec p2 100); [reflexivity|].
  destruct (Z.eqb_spec p2 0); simpl; rewrite !Z.ltb_lt.
  - pose proof (hash_user_range flag_name (String a u')). lia.
  - lia.
Qed.

Lemma monotonicity_under_rollout_increase_witness :
  fst (is_enabled (at_rollout half_manager "beta" half_flag 95)
         (mkInputs "t" 0) "beta" (Some "user_005"%string) None) = true
  /\ fst (is_enabled (at_rollout half_manager "beta" half_flag 97)
            (mkInputs "t" 99) "beta" (Some "user_005"%string) None) = true.
Proof.
  assert (H : fst (is_enabled (at_rollout half_manager "beta" half_flag 95)
         (mkInputs "t" 0) "beta" (Some "user_005"%string) None) = true)
    by (vm_compute; reflexivity).
  split; [exact H |].
  apply (monotonicity_under_rollout_increase half_manager (mkInputs "t" 0)
           (mkInputs "t" 99) "beta" half_flag "user_005" 95 97 None).
  - reflexivity.
  - discriminate.
  - simpl. tauto.
  - lia.
  - exact H.
Defined.

(** ** Audit log *)

Lemma last_n_short {A} (n : nat) (xs : list A) :
  (length xs <= n)%nat -> last_n n xs = xs.
Proof.
  intros H. unfold last_n. replace (length xs - n)%nat with 0%nat by lia.
  reflexivity.
Qed.

Lemma last_n_length {A} (n : nat) (xs : list A) :
  length (last_n n xs) = Nat.min n (length xs).
Proof. unfold last_n. rewrite length_skipn. lia. Qed.

(** appending to the kept window and trimming keeps the window of the
    longer history *)
Lemma last_n_snoc {A} (n : nat) (xs : list A) (x : A) :
  (0 < n)%nat -> last_n n (last_n n xs ++ [x]) = last_n n (xs ++ [x]).
Proof.
  intros Hn. unfold last_n.
  rewrite !length_app, length_skipn. simpl.
  destruct (Nat.le_gt_cases (length xs) n) as [Hle | Hgt].
  - replace (length xs - n)%nat with 0%nat by lia. simpl.
    rewrite Nat.sub_0_r. reflexivity.
  - replace (length xs - (length xs - n) + 1 - n)%nat with 1%nat by lia.
    replace (length xs + 1 - n)%nat with (1 + (length xs - n))%nat by lia.
    rewrite <- (skipn_skipn 1 (length xs - n) (xs ++ [x])).
    rewrite (skipn_app (length xs - n) xs).
    replace (length xs - n - length xs)%nat with 0%nat by lia.
    reflexivity.
Qed.

Lemma log_evaluation_window self now f u b r :
  audit_log (_log_evaluation self now f u b r)
  = last_n 1000 (audit_log self ++ [Audit.Entry now f u b r]).
Proof.
  unfold _log_evaluation. simpl.
  destruct (Nat.ltb_spec 1000 (length (audit_log self ++ [Audit.Entry now f u b r])))
    as [Hgt | Hle]; [reflexivity |].
  symmetry. apply last_n_short. exact Hle.
Qed.

Lemma record_all_window (es : list Audit.entry) : forall self,
  (length (audit_log self) <= 1000)%nat ->
  audit_log (record_all self es) = last_n 1000 (audit_log self ++ es).
Proof.
  induction es as [|e es IH] using rev_ind; intros self Hlen.
  - simpl. rewrite app_nil_r. symmetry. apply last_n_short. exact Hlen.
  - unfold record_all in *. rewrite fold_left_app.
    change (fold_left record [e] (fold_left record es self))
      with (record (fold_left record es self) e).
    unfold record at 1. rewrite log_evaluation_window.
    rewrite (IH self Hlen). destruct e as [t f u b r]. simpl.
    rewrite last_n_snoc by lia. rewrite <- app_assoc. reflexivity.
Qed.

(** a manager is created with an empty audit log *)
Lemma init_audit_log config_file environ :
  audit_log (__init__ config_file environ) = [].
Proof. destruct config_file as [[|config]|]; reflexivity. Qed.

(** evaluation keeps the bound *)
Lemma is_enabled_log_bound self io f u ctx :
  (length (audit_log self) <= 1000)%nat ->
  (length (audit_log (snd (is_enabled self io f u ctx))) <= 1000)%nat.
Proof.
  intros H. unfold is_enabled. destruct (flags self !! f); [|exact H].
  split_ifs; simpl fst; simpl snd; try exact H;
    rewrite log_evaluation_window, last_n_length; lia.
Qed.

Lemma evaluate_all_log_bound (calls : list call) : forall self,
  (length (audit_log self) <= 1000)%nat ->
  (length (audit_log (evaluate_all self calls)) <= 1000)%nat.
Proof.
  unfold evaluate_all.
  induction calls as [|c rest IH]; intros self H; simpl; [exact H |].
  apply IH, is_enabled_log_bound, H.
Qed.

(** C5. The audit log of a manager never holds more than 1000 entries,
    after any sequence of evaluations and after any sequence of
    recordings; once more than 1000 entries have been recorded,
    [export_audit_log] returns exactly the 1000 most recent ones, oldest
    first: the oldest entries are the ones that left. *)
Theorem audit_log_cap_fifo
    (config_file : option file_read) (environ : list (string * string))
    (calls : list call) (es : list Audit.entry) :
  (length (export_audit_log
             (evaluate_all (__init__ config_file environ) calls)) <= 1000)%nat
  /\ (length (export_audit_log
                (record_all (__init__ config_file environ) es)) <= 1000)%nat
  /\ ((1000 < length es)%nat ->
      export_audit_log (record_all (__init__ config_file environ) es)
      = skipn (length es - 1000) es
      /\ length (export_audit_log
                   (record_all (__init__ config_file environ) es)) = 1000%nat).
Proof.
  pose proof (init_audit_log config_file environ) as Hinit.
  assert (Hlen : (length (audit_log (__init__ config_file environ)) <= 1000)%nat)
    by (rewrite Hinit; simpl; lia).
  unfold export_audit_log.
  split; [apply evaluate_all_log_bound, Hlen |].
  rewrite (record_all_window es _ Hlen), Hinit. simpl.
  split; [rewrite last_n_length; lia |].
  intros Hes. unfold last_n. split; [reflexivity |].
  rewrite length_skipn. lia.
Qed.

Lemma audit_log_cap_fifo_witness :
  export_audit_log (record_all (__init__ None []) (numbered 1003))
  = skipn 3 (numbered 1003).
Proof.
  apply (audit_log_cap_fifo None [] [] (numbered 1003)).
  vm_compute. lia.
Defined.

(** C6, as stated, fails on the paths that return without logging: the
    kill switch, and 100% (or 0%) for a user who is not targeted.  Both
    flags are in the registry and the user id is present; the log stays
    empty. *)
Lemma audit_completeness_counterexample :
  (is_Some (flags killed_manager !! "agent_tone"%string)
   /\ audit_log killed_manager = []
   /\ audit_log (snd (is_enabled killed_manager (mkInputs "t" 0)
                        "agent_tone" (Some "vip"%string) None)) = [])
  /\ (is_Some (flags (__init__ None []) !! "show_risks_upfront"%string)
      /\ audit_log (__init__ None []) = []
      /\ audit_log (snd (is_enabled (__init__ None []) (mkInputs "t" 0)
                           "show_risks_upfront" (Some "u1"%string) None)) = []).
Proof.
  repeat split; try (vm_compute; reflexivity); vm_compute; eexists; reflexivity.
Qed.

(** C6 (amended). A call to [is_enabled] appends exactly one audit record,
    carrying the flag name, the user id, the returned boolean and the
    reason, when the flag is in the registry with [enabled] true, the user
    id is a non-empty string, and the user is targeted or the percentage
    is neither 0 nor 100 (the log then keeps its last 1000 entries); in
    every other case (unknown flag, absent or empty user id, kill switch,
    0% or 100% for a user who is not targeted) the manager is left as it
    was. *)
Theorem audit_recording
    (self : FeatureFlagManager) (io : Inputs) (flag_name : string)
    (user_id : option string) (context : option (list (string * string))) :
  match flags self !! flag_name with
  | None => snd (is_enabled self io flag_name user_id context) = self
  | Some flag =>
      if records_evaluation flag user_id then
        exists u, user_id = Some u /\ u <> EmptyString
        /\ audit_log (snd (is_enabled self io flag_name user_id context))
           = last_n 1000
               (audit_log self
                ++ [Audit.Entry (utcnow io) flag_name u
                      (fst (is_enabled self io flag_name user_id context))
                      (evaluation_reason flag user_id)])
      else snd (is_enabled self io flag_name user_id context) = self
  end.
Proof.
  unfold is_enabled, records_evaluation, evaluation_reason.
  destruct (flags self !! flag_name) as [flag|]; [|reflexivity].
  destruct (enabled flag); simpl; [|reflexivity].
  destruct user_id as [[|a u]|]; simpl; try (split_ifs; reflexivity).
  destruct (contains (target_users flag) (String a u)); simpl.
  - exists (String a u). repeat split; [discriminate |].
    apply log_evaluation_window.
  - destruct (rollout_percentage flag =? 100); simpl; [reflexivity|].
    destruct (rollout_percentage flag =? 0); simpl; [reflexivity|].
    exists (String a u). repeat split; [discriminate |].
    apply log_evaluation_window.
Qed.

(** ** Range of the rollout percentage *)

Lemma in_range_insert fl n c :
  in_range fl -> 0 <= rollout_percentage c <= 100 ->
  in_range (<[n := c]> fl).
Proof. intros Hfl Hc. apply map_Forall_insert_2; assumption. Qed.

Lemma in_range_lookup fl n c :
  in_range fl -> fl !! n = Some c -> 0 <= rollout_percentage c <= 100.
Proof. intros Hfl Hn. exact (Hfl n c Hn). Qed.

Lemma load_defaults_in_range self :
  in_range (flags self) -> in_range (flags (_load_defaults self)).
Proof.
  intros H. unfold _load_defaults. simpl.
  repeat (apply in_range_insert; [| simpl; lia]). exact H.
Qed.

Lemma env_entry_in_range fl kv :
  in_range fl -> in_range (env_entry fl kv).
Proof.
  intros H. destruct kv as [key value]. unfold env_entry.
  destruct (negb (startswith key "FF_")); [exact H |].
  destruct (fl !! lower (drop_chars 3 key)) as [c|] eqn:Hc; [| exact H].
  split_ifs; try exact H; apply in_range_insert; try exact H; simpl; lia.
Qed.

Lemma load_from_env_in_range environ : forall self,
  in_range (flags self) -> in_range (flags (_load_from_env self environ)).
Proof.
  unfold _load_from_env. simpl.
  induction environ as [|kv rest IH]; intros self H; simpl; [exact H |].
  apply (IH (Manager (env_entry (flags self) kv) (audit_log self))).
  simpl. apply env_entry_in_range. exact H.
Qed.

Lemma update_flag_in_range self f e p t :
  in_range (flags self) -> in_range (flags (update_flag self f e p t)).
Proof.
  intros H. unfold update_flag.
  destruct (flags self !! f) as [c|] eqn:Hc; [| exact H].
  simpl. apply in_range_insert; [exact H |].
  pose proof (in_range_lookup _ _ _ H Hc).
  destruct e, p, t; simpl; lia.
Qed.

(** C7, as stated, fails twice: [_load_from_file] stores 150 as it is, and
    [_load_from_env] drops 150 and leaves the flag at its default (off,
    0%) where a clamp would store 100. *)
Lemma rollout_range_counterexample :
  rollout_percentage
    <$> (flags (__init__ (Some oversized_document) []) !! "aggressive_capture"%string)
    = Some 150
  /\ flags (__init__ None oversized_environ) !! "aggressive_capture"%string
     = flags (__init__ None []) !! "aggressive_capture"%string
  /\ rollout_percentage
       <$> (flags (__init__ None oversized_environ) !! "aggressive_capture"%string)
     = Some 0.
Proof. repeat split; vm_compute; reflexivity. Qed.

(** C7 (amended). Every flag of the registry has its rollout percentage in
    0..100 after [_load_defaults], and [_load_from_env] and [update_flag]
    keep it so; [update_flag] clamps the percentage it is given into
    0..100 before storing it, and [_load_from_env] leaves the registry
    unchanged for a digit string above 100. *)
Theorem rollout_percentage_range (self : FeatureFlagManager) :
  in_range (flags self) ->
  in_range (flags (_load_defaults self))
  /\ (forall environ, in_range (flags (_load_from_env self environ)))
  /\ (forall f e p t, in_range (flags (update_flag self f e p t)))
  /\ (forall f flag e p t,
        flags self !! f = Some flag ->
        rollout_percentage <$> (flags (update_flag self f e (Some p) t) !! f)
        = Some (Z.max 0 (Z.min 100 p)))
  /\ (forall key value,
        isdigit (lower (strip value)) = true ->
        100 < int_of_digits (lower (strip value)) ->
        env_entry (flags self) (key, value) = flags self)
  /\ (forall environ, in_range (flags (__init__ None environ))).
Proof.
  intros H.
  split; [| split; [| split; [| split; [| split]]]].
  - apply load_defaults_in_range, H.
  - intros environ. apply load_from_env_in_range, H.
  - intros f e p t. apply update_flag_in_range, H.
  - intros f flag e p t Hf. unfold update_flag. rewrite Hf. simpl.
    rewrite lookup_insert_eq. simpl. destruct e, t; reflexivity.
  - intros key value Hd Hv. unfold env_entry.
    destruct (negb (startswith key "FF_")); [reflexivity |].
    destruct (flags self !! lower (drop_chars 3 key)); [| reflexivity].
    rewrite Hd.
    destruct (contains ["true"; "1"; "on"]%string (lower (strip value))) eqn:Ht.
    { apply contains_In in Ht. simpl in Ht.
      destruct Ht as [E | [E | [E | []]]]; rewrite <- E in Hd, Hv;
        vm_compute in Hd, Hv; congruence. }
    destruct (contains ["false"; "0"; "off"]%string (lower (strip value))) eqn:Hf.
    { apply contains_In in Hf. simpl in Hf.
      destruct Hf as [E | [E | [E | []]]]; rewrite <- E in Hd, Hv;
        vm_compute in Hd, Hv; congruence. }
    replace (int_of_digits (lower (strip value)) <=? 100) with false
      by (symmetry; apply Z.leb_gt; exact Hv).
    rewrite andb_false_r. reflexivity.
  - intros environ. unfold __init__.
    apply load_from_env_in_range, load_defaults_in_range.
    simpl. apply map_Forall_empty.
Qed.

Lemma rollout_percentage_range_witness :
  rollout_percentage
    <$> (flags (update_flag (__init__ None []) "aggressive_capture"
                  (Some true) (Some 150) None) !! "aggressive_capture"%string)
  = Some (Z.max 0 (Z.min 100 150)).
Proof.
  assert (H : in_range (flags (__init__ None []))).
  { unfold in_range. apply (bool_decide_unpack _). vm_compute. exact I. }
  destruct (rollout_percentage_range (__init__ None []) H)
    as (_ & _ & _ & Hclamp & _).
  eapply Hclamp. vm_compute. reflexivity.
Defined.

(** ** Environment overrides *)

(** loading the environment never adds or removes a flag *)
Lemma env_entry_is_Some fl kv g :
  is_Some (env_entry fl kv !! g) <-> is_Some (fl !! g).
Proof.
  destruct kv as [key value]. unfold env_entry.
  destruct (negb (startswith key "FF_")); [reflexivity |].
  destruct (fl !! lower (drop_chars 3 key)) as [c|] eqn:Hc; [| reflexivity].
  assert (Hins : forall c',
            is_Some (<[lower (drop_chars 3 key) := c']> fl !! g)
            <-> is_Some (fl !! g)).
  { intros c'. rewrite lookup_insert_is_Some. split.
    - intros [E | [_ H]]; [rewrite <- E, Hc; eexists; reflexivity | exact H].
    - intros H. destruct (decide (lower (drop_chars 3 key) = g)); auto. }
  split_ifs; try reflexivity; apply Hins.
Qed.

Lemma load_from_env_is_Some environ : forall self g,
  is_Some (flags (_load_from_env self environ) !! g)
  <-> is_Some (flags self !! g).
Proof.
  unfold _load_from_env. simpl.
  induction environ as [|kv rest IH]; intros self g; simpl; [reflexivity |].
  rewrite (IH (Manager (env_entry (flags self) kv) (audit_log self)) g).
  simpl. apply env_entry_is_Some.
Qed.

(** the loop, one variable further *)
Lemma load_from_env_snoc self pre kv :
  flags (_load_from_env self (pre ++ [kv]))
  = env_entry (flags (_load_from_env self pre)) kv.
Proof. unfold _load_from_env. simpl. rewrite fold_left_app. reflexivity. Qed.

Lemma startswith_FF NAME : startswith ("FF_" ++ NAME) "FF_" = true.
Proof. unfold startswith. simpl. destruct NAME; reflexivity. Qed.

Lemma env_entry_FF fl NAME value :
  env_entry fl (("FF_" ++ NAME)%string, value)
  = match fl !! lower NAME with
    | None => fl
    | Some c =>
        if contains ["true"; "1"; "on"]%string (lower (strip value))
        then <[lower NAME := set_switch c true 100]> fl
        else if contains ["false"; "0"; "off"]%string (lower (strip value))
        then <[lower NAME := set_switch c false 0]> fl
        else if isdigit (lower (strip value)) then
          if (0 <=? int_of_digits (lower (strip value)))
             && (int_of_digits (lower (strip value)) <=? 100)
          then <[lower NAME := set_switch c true
                                 (int_of_digits (lower (strip value)))]> fl
          else fl
        else fl
    end.
Proof. unfold env_entry. rewrite startswith_FF. reflexivity. Qed.

(** a variable that names another flag leaves this one alone *)
Lemma env_entry_frame fl kv f :
  names_flag f kv = false -> env_entry fl kv !! f = fl !! f.
Proof.
  destruct kv as [key value]. unfold names_flag, env_entry. cbn [fst].
  destruct (startswith key "FF_"); cbn [negb andb]; [| reflexivity].
  intros Hne. apply String.eqb_neq in Hne.
  destruct (fl !! lower (drop_chars 3 key)); [| reflexivity].
  split_ifs; try reflexivity; apply lookup_insert_ne; exact Hne.
Qed.

Lemma load_from_env_frame post : forall self pre f,
  forallb (fun kv => negb (names_flag f kv)) post = true ->
  flags (_load_from_env self (pre ++ post)) !! f
  = flags (_load_from_env self pre) !! f.
Proof.
  induction post as [|kv post IH] using rev_ind; intros self pre f Hpost.
  - rewrite app_nil_r. reflexivity.
  - rewrite forallb_app in Hpost. apply andb_true_iff in Hpost.
    destruct Hpost as [Hpost Hkv]. simpl in Hkv.
    rewrite andb_true_r in Hkv. apply negb_true_iff in Hkv.
    rewrite app_assoc, load_from_env_snoc, env_entry_frame by exact Hkv.
    apply IH. exact Hpost.
Qed.



(** ** Variants *)


(** ** The empty user id *)

(** C10. A call with the empty string as user id is the call with no user
    id: same result and same manager, so the empty string is not looked
    up in the target users and nothing is logged; for a flag that is on
    at a percentage strictly between 0 and 100 the result is the random
    draw compared with the percentage. *)
Theorem empty_user_id_is_absent
    (self : FeatureFlagManager) (io : Inputs) (flag_name : string)
    (context : option (list (string * string))) :
  is_enabled self io flag_name (Some EmptyString) context
  = is_enabled self io flag_name None context
  /\ snd (is_enabled self io flag_name (Some EmptyString) context) = self
  /\ (forall flag,
        flags self !! flag_name = Some flag ->
        enabled flag = true ->
        0 < rollout_percentage flag < 100 ->
        fst (is_enabled self io flag_name (Some EmptyString) context)
        = (randint io <? rollout_percentage flag)).
Proof.
  split; [reflexivity |]. split.
  - unfold is_enabled. destruct (flags self !! flag_name); [| reflexivity].
    simpl. split_ifs; reflexivity.
  - intros flag Hf He Hp. unfold is_enabled. rewrite Hf, He. simpl.
    destruct (Z.eqb_spec (rollout_percentage flag) 100); [lia |].
    destruct (Z.eqb_spec (rollout_percentage flag) 0); [lia |].
    reflexivity.
Qed.

Lemma empty_user_id_is_absent_witness :
  fst (is_enabled empty_target_half (mkInputs "t" 7) "beta"
         (Some EmptyString) None) = (7 <? 50)
  /\ fst (is_enabled empty_target_half (mkInputs "t" 70) "beta"
            (Some EmptyString) None) = (70 <? 50).
Proof.
  destruct (empty_user_id_is_absent empty_target_half (mkInputs "t" 7) "beta"
              None) as (_ & _ & Hlow).
  destruct (empty_user_id_is_absent empty_target_half (mkInputs "t" 70) "beta"
              None) as (_ & _ & Hhigh).
  split.
  - apply (Hlow (setattr empty_target_flag (RolloutPercentage 50)));
      [vm_compute; reflexivity | reflexivity | simpl; lia].
  - apply (Hhigh (setattr empty_target_flag (RolloutPercentage 50)));
      [vm_compute; reflexivity | reflexivity | simpl; lia].
Defined.

(** * Further properties of feature_flags.py *)

(** ** Unknown flags and boundaries *)

(** X1. A flag name that is not in the registry is harmless everywhere:
    [is_enabled] returns false, [get_variant] returns the default, and
    [update_flag] does nothing; none of them changes the manager. *)
Theorem unknown_flag_is_harmless
    (self : FeatureFlagManager) (io : Inputs) (flag_name : string)
    (user_id : option string) (context : option (list (string * string)))
    (default : string) (e : option bool) (p : option Z)
    (t : option (list string)) :
  flags self !! flag_name = None ->
  is_enabled self io flag_name user_id context = (false, self)
  /\ get_variant self io flag_name user_id default = (Returns default, self)
  /\ update_flag self flag_name e p t = self.
Proof.
  intros Hf. unfold get_variant, is_enabled, update_flag. rewrite Hf.
  repeat split.
Qed.

Lemma unknown_flag_is_harmless_witness :
  get_variant (__init__ None []) (mkInputs "t" 0) "no_such_flag"
    (Some "u1"%string) "control"
  = (Returns "control"%string, __init__ None []).
Proof.
  apply (unknown_flag_is_harmless (__init__ None []) (mkInputs "t" 0)
           "no_such_flag" (Some "u1"%string) None "control" None None None).
  vm_compute. reflexivity.
Defined.

(** X2. For a flag that is on: at 100% every caller gets true, with or
    without a user id; at 0% exactly the targeted users (non-empty id in
    the target users) get true.  At either boundary a caller who is not
    targeted leaves no trace: the manager is unchanged. *)
Theorem rollout_boundaries
    (self : FeatureFlagManager) (io : Inputs) (flag_name : string)
    (flag : FlagConfig) (user_id : option string)
    (context : option (list (string * string))) :
  flags self !! flag_name = Some flag ->
  enabled flag = true ->
  (rollout_percentage flag = 100 ->
   fst (is_enabled self io flag_name user_id context) = true)
  /\ (rollout_percentage flag = 0 ->
      fst (is_enabled self io flag_name user_id context)
      = given user_id
        && contains (target_users flag) (default EmptyString user_id))
  /\ (rollout_percentage flag = 0 \/ rollout_percentage flag = 100 ->
      given user_id
      && contains (target_users flag) (default EmptyString user_id) = false ->
      snd (is_enabled self io flag_name user_id context) = self).
Proof.
  intros Hf He. unfold is_enabled. rewrite Hf, He. simpl.
  split; [| split].
  - intros ->. simpl. destruct (given user_id && _); reflexivity.
  - intros ->. simpl. destruct (given user_id && _); reflexivity.
  - intros Hp ->. destruct Hp as [-> | ->]; reflexivity.
Qed.

Lemma rollout_boundaries_witness :
  fst (is_enabled (__init__ None []) (mkInputs "t" 0) "show_comparables"
         None None) = true.
Proof.
  apply (rollout_boundaries (__init__ None []) (mkInputs "t" 0)
           "show_comparables"
           (FlagConfig_init "show_comparables" true 100 None
              "Show comparable sales data in listing details") None None).
  - vm_compute. reflexivity.
  - reflexivity.
  - reflexivity.
Defined.

(** ** Consistency *)

Lemma get_variant_state self io f u d :
  snd (get_variant self io f u d) = snd (is_enabled self io f u None).
Proof.
  unfold get_variant, getitem.
  destruct (is_enabled self io f u None) as [on self']. simpl.
  destruct on; simpl; [| reflexivity].
  destruct (flags self' !! f); reflexivity.
Qed.

Lemma update_flag_other self f e p t g :
  g <> f -> flags (update_flag self f e p t) !! g = flags self !! g.
Proof.
  intros Hg. unfold update_flag.
  destruct (flags self !! f); [| reflexivity].
  simpl. apply lookup_insert_ne. congruence.
Qed.

Lemma perform_keeps_flag self o f :
  writes_flag f o = false -> flags (perform self o) !! f = flags self !! f.
Proof.
  destruct o as [io g u ctx | io g u d | g e p t]; simpl; intros Hw.
  - rewrite is_enabled_flags. reflexivity.
  - rewrite get_variant_state, is_enabled_flags. reflexivity.
  - apply update_flag_other. apply String.eqb_neq in Hw. congruence.
Qed.

Lemma perform_all_keeps_flag os : forall self f,
  forallb (fun o => negb (writes_flag f o)) os = true ->
  flags (perform_all self os) !! f = flags self !! f.
Proof.
  unfold perform_all.
  induction os as [|o os IH]; intros self f Hos; simpl in *; [reflexivity |].
  apply andb_true_iff in Hos. destruct Hos as [Ho Hos].
  rewrite (IH (perform self o) f Hos).
  apply perform_keeps_flag. apply negb_true_iff. exact Ho.
Qed.

(** the result for a non-empty user id is read off the flag alone *)
Lemma identified_result self self' io io' f u ctx ctx' :
  u <> EmptyString ->
  flags self !! f = flags self' !! f ->
  fst (is_enabled self io f (Some u) ctx)
  = fst (is_enabled self' io' f (Some u) ctx').
Proof.
  intros Hu Hf. unfold is_enabled. rewrite <- Hf.
  destruct (flags self !! f) as [flag|]; [| reflexivity].
  destruct u as [|a u]; [congruence |]. simpl.
  split_ifs; reflexivity.
Qed.

(** X3. The answer for a non-empty user id changes only when that flag is
    updated: after any sequence of evaluations, variant lookups and
    updates of other flags, with any clock and random draws, [is_enabled]
    returns for this user what it returned before. *)
Theorem identified_user_sees_a_stable_flag
    (self : FeatureFlagManager) (os : list operation) (io io' : Inputs)
    (flag_name u : string) (context context' : option (list (string * string))) :
  u <> EmptyString ->
  forallb (fun o => negb (writes_flag flag_name o)) os = true ->
  fst (is_enabled (perform_all self os) io' flag_name (Some u) context')
  = fst (is_enabled self io flag_name (Some u) context).
Proof.
  intros Hu Hos. apply identified_result; [exact Hu |].
  apply perform_all_keeps_flag, Hos.
Qed.

Lemma identified_user_sees_a_stable_flag_witness :
  fst (is_enabled (perform_all half_manager busy_operations) (mkInputs "t4" 99)
         "beta" (Some "user_005"%string) None)
  = fst (is_enabled half_manager (mkInputs "t0" 0) "beta"
           (Some "user_005"%string) None).
Proof.
  apply identified_user_sees_a_stable_flag.
  - discriminate.
  - vm_compute. reflexivity.
Defined.

(** ** update_flag *)

(** X4. [update_flag] on a flag of the registry writes the arguments it is
    given and nothing else: [enabled] and the target users as given, the
    percentage clamped into 0..100, each only when the argument is not
    [None]; name, segments, variant and description stay, so do all other
    flags and the audit log. *)
Theorem update_flag_writes_what_it_is_given
    (self : FeatureFlagManager) (flag_name : string) (flag : FlagConfig)
    (e : option bool) (p : option Z) (t : option (list string)) :
  flags self !! flag_name = Some flag ->
  flags (update_flag self flag_name e p t) !! flag_name
  = Some (mkFlagConfig (name flag)
            (default (enabled flag) e)
            (from_option (fun z => Z.max 0 (Z.min 100 z))
                         (rollout_percentage flag) p)
            (default (target_users flag) t)
            (target_segments flag) (variant flag) (description flag))
  /\ (forall g, g <> flag_name ->
        flags (update_flag self flag_name e p t) !! g = flags self !! g)
  /\ audit_log (update_flag self flag_name e p t) = audit_log self.
Proof.
  intros Hf. split; [| split].
  - unfold update_flag. rewrite Hf. simpl. rewrite lookup_insert_eq.
    destruct flag, e, p, t; reflexivity.
  - intros g Hg. apply update_flag_other, Hg.
  - unfold update_flag. rewrite Hf. reflexivity.
Qed.

Lemma update_flag_writes_what_it_is_given_witness :
  flags (update_flag (__init__ None []) "agent_tone" None (Some (-20)) None)
    !! "agent_tone"%string
  = Some (mkFlagConfig "agent_tone" true 0 [] []
            (Some "professional"%string)
            "Agent personality variant for A/B testing").
Proof.
  apply (update_flag_writes_what_it_is_given (__init__ None []) "agent_tone"
           (FlagConfig_init "agent_tone" true 100 (Some "professional"%string)
              "Agent personality variant for A/B testing")
           None (Some (-20)) None).
  vm_compute. reflexivity.
Defined.

(** X5. [update_flag] is idempotent: the same update applied twice leaves
    the manager as the first application did. *)
Theorem update_flag_idempotent
    (self : FeatureFlagManager) (flag_name : string)
    (e : option bool) (p : option Z) (t : option (list string)) :
  update_flag (update_flag self flag_name e p t) flag_name e p t
  = update_flag self flag_name e p t.
Proof.
  unfold update_flag at 2 3.
  destruct (flags self !! flag_name) as [flag|] eqn:Hf.
  - unfold update_flag. simpl. rewrite lookup_insert_eq, insert_insert_eq.
    destruct e, p, t; reflexivity.
  - unfold update_flag. rewrite Hf. reflexivity.
Qed.

(** X6. Raising the percentage with [update_flag] never turns the flag off
    for a user who had it on: if [is_enabled] is true for a non-empty user
    id and the new percentage is at least the stored one, it is true
    after the update, also when the new percentage is above 100 and gets
    clamped. *)
Theorem raising_rollout_keeps_users
    (self : FeatureFlagManager) (io io' : Inputs) (flag_name : string)
    (flag : FlagConfig) (u : string) (p2 : Z)
    (context context' : option (list (string * string))) :
  flags self !! flag_name = Some flag ->
  u <> EmptyString ->
  rollout_percentage flag <= p2 ->
  fst (is_enabled self io flag_name (Some u) context) = true ->
  fst (is_enabled (update_flag self flag_name None (Some p2) None) io'
         flag_name (Some u) context') = true.
Proof.
  intros Hf Hu Hp. unfold is_enabled, update_flag. rewrite Hf. simpl.
  rewrite lookup_insert_eq. simpl.
  destruct u as [|a u]; [congruence |]. simpl.
  destruct (enabled flag); simpl; [| discriminate].
  destruct (contains (target_users flag) (String a u)); [reflexivity |].
  pose proof (hash_user_range flag_name (String a u)) as Hh.
  destruct (Z.eqb_spec (rollout_percentage flag) 100) as [E100 | N100].
  - intros _. replace (Z.max 0 (Z.min 100 p2)) with 100 by lia. reflexivity.
  - destruct (Z.eqb_spec (rollout_percentage flag) 0); [discriminate |].
    simpl. rewrite Z.ltb_lt. intros Hon.
    destruct (Z.eqb_spec (Z.max 0 (Z.min 100 p2)) 100); [reflexivity |].
    destruct (Z.eqb_spec (Z.max 0 (Z.min 100 p2)) 0); [lia |].
    simpl. apply Z.ltb_lt. lia.
Qed.

Lemma raising_rollout_keeps_users_witness :
  fst (is_enabled (update_flag (at_rollout half_manager "beta" half_flag 95)
                     "beta" None (Some 250) None)
         (mkInputs "t" 0) "beta" (Some "user_005"%string) None) = true.
Proof.
  apply (raising_rollout_keeps_users
           (at_rollout half_manager "beta" half_flag 95)
           (mkInputs "t" 0) (mkInputs "t" 0) "beta"
           (setattr half_flag (RolloutPercentage 95)) "user_005" 250 None None).
  - vm_compute. reflexivity.
  - discriminate.
  - simpl. lia.
  - vm_compute. reflexivity.
Defined.

(** X7. The kill switch is reversible: switching a flag that is on to off
    with [update_flag] turns it off for every caller, and switching it on
    again restores the registry exactly, target users and percentage
    included. *)
Theorem kill_switch_round_trip
    (self : FeatureFlagManager) (flag_name : string) (flag : FlagConfig) :
  flags self !! flag_name = Some flag ->
  enabled flag = true ->
  (forall io user_id context,
     fst (is_enabled (update_flag self flag_name (Some false) None None)
            io flag_name user_id context) = false)
  /\ update_flag (update_flag self flag_name (Some false) None None)
       flag_name (Some true) None None = self.
Proof.
  intros Hf He. split.
  - intros io user_id context. unfold is_enabled, update_flag.
    rewrite Hf. simpl. rewrite lookup_insert_eq. reflexivity.
  - unfold update_flag. rewrite Hf. simpl. rewrite lookup_insert_eq. simpl.
    rewrite insert_insert_eq. destruct self as [fl log]. simpl in *. f_equal.
    apply insert_id. rewrite Hf. f_equal.
    destruct flag; simpl in *. congruence.
Qed.

Lemma kill_switch_round_trip_witness :
  update_flag (update_flag vip_manager "collect_budget_upfront"
                 (Some false) None None)
    "collect_budget_upfront" (Some true) None None = vip_manager.
Proof.
  apply (kill_switch_round_trip vip_manager "collect_budget_upfront"
           (mkFlagConfig "collect_budget_upfront" true 0
              ["vip_user_1"%string] [] None
              "Ask about budget/timeline before showing listings")).
  - vm_compute. reflexivity.
  - reflexivity.
Defined.

(** ** The registry keeps its flags *)

Lemma update_flag_is_Some self f e p t g :
  is_Some (flags (update_flag self f e p t) !! g) <-> is_Some (flags self !! g).
Proof.
  unfold update_flag. destruct (flags self !! f) as [c|] eqn:Hc; [| reflexivity].
  simpl. rewrite lookup_insert_is_Some. split.
  - intros [E | [_ H]]; [rewrite <- E, Hc; eexists; reflexivity | exact H].
  - intros H. destruct (decide (f = g)); auto.
Qed.

Lemma perform_is_Some self o g :
  is_Some (flags (perform self o) !! g) <-> is_Some (flags self !! g).
Proof.
  destruct o as [io f u ctx | io f u d | f e p t]; simpl.
  - rewrite is_enabled_flags. reflexivity.
  - rewrite get_variant_state, is_enabled_flags. reflexivity.
  - apply update_flag_is_Some.
Qed.

(** X8. No method call adds or removes a flag: after any sequence of
    [is_enabled], [get_variant] and [update_flag] calls the registry
    knows exactly the flag names it knew before. *)
Theorem registry_keys_are_fixed
    (self : FeatureFlagManager) (os : list operation) (g : string) :
  is_Some (flags (perform_all self os) !! g) <-> is_Some (flags self !! g).
Proof.
  unfold perform_all. revert self.
  induction os as [|o os IH]; intros self; simpl; [reflexivity |].
  rewrite IH. apply perform_is_Some.
Qed.

Lemma load_items_is_Some config : forall fl g,
  is_Some (fl !! g) -> is_Some (load_items config fl !! g).
Proof.
  induction config as [|[n data] rest IH]; intros fl g Hg; simpl; [exact Hg |].
  destruct (fl !! n) as [c|] eqn:Hn.
  - apply IH. rewrite lookup_insert_is_Some.
    destruct (decide (n = g)); auto.
  - destruct (FlagConfig_kwargs _ data); [| exact Hg].
    apply IH. rewrite lookup_insert_is_Some.
    destruct (decide (n = g)); auto.
Qed.

(** X9. The built-in flags are always known: whatever the configuration
    file holds (or fails to hold) and whatever the environment, every
    flag of [_load_defaults] is in the registry of a new manager, and a
    flag a file adds stays through [_load_from_env]. *)
Theorem built_in_flags_are_always_known
    (config_file : option file_read) (environ : list (string * string))
    (g : string) :
  (is_Some (flags (__init__ None []) !! g) ->
   is_Some (flags (__init__ config_file environ) !! g))
  /\ (is_Some (flags (__init__ config_file []) !! g)
      <-> is_Some (flags (__init__ config_file environ) !! g)).
Proof.
  unfold __init__. split.
  - intros Hg. apply load_from_env_is_Some.
    destruct config_file as [[|config]|]; try exact Hg.
    simpl. apply load_items_is_Some. exact Hg.
  - rewrite !load_from_env_is_Some. reflexivity.
Qed.

Lemma built_in_flags_are_always_known_witness :
  is_Some (flags (__init__ (Some oversized_document) oversized_environ)
             !! "agent_tone"%string).
Proof.
  apply (built_in_flags_are_always_known (Some oversized_document)
           oversized_environ "agent_tone").
  vm_compute. eexists. reflexivity.
Defined.

(** ** _load_from_file *)

Lemma kwargs_refused data : forall c,
  existsb refused_key data = true ->
  exists e, FlagConfig_kwargs c data = Raises e.
Proof.
  induction data as [|f rest IH]; intros c H; simpl in H; [discriminate |].
  destruct f; simpl in *; try (apply IH; exact H); eexists; reflexivity.
Qed.

Lemma kwargs_accepted data : forall c,
  existsb refused_key data = false ->
  FlagConfig_kwargs c data = Returns (fold_left setattr data c).
Proof.
  induction data as [|f rest IH]; intros c H; simpl in H; [reflexivity |].
  destruct f; simpl in *; try discriminate; apply IH; exact H.
Qed.

(** X10. A document entry that creates a flag and carries a key the
    constructor refuses ([name], or a key that is no field) ends the
    load: what the entries before it stored stays, the entry itself and
    all entries after it are dropped.  The same keys in an entry of a
    flag that exists are accepted and the load goes on. *)
Theorem load_stops_at_refused_key
    (before rest : document) (n : string) (data : list field)
    (fl : gmap string FlagConfig) :
  existsb refused_key data = true ->
  (load_items before fl !! n = None ->
   load_items (before ++ (n, data) :: rest) fl = load_items before fl)
  /\ (forall c, fl !! n = Some c ->
        load_items ((n, data) :: rest) fl
        = load_items rest (<[n := fold_left setattr data c]> fl)).
Proof.
  intros Hbad. split.
  - revert fl. induction before as [|[m d] before IH]; intros fl Hn; simpl in *.
    + rewrite Hn.
      destruct (kwargs_refused data (FlagConfig_init n false 0 None "") Hbad)
        as [e ->].
      reflexivity.
    + destruct (fl !! m) as [c|].
      * apply IH, Hn.
      * destruct (FlagConfig_kwargs _ d); [apply IH, Hn | reflexivity].
  - intros c Hc. simpl. rewrite Hc. reflexivity.
Qed.

Lemma load_stops_at_refused_key_witness :
  load_items broken_document (flags (__init__ None []))
  = load_items [("agent_tone"%string, [Variant (Some "casual"%string)])]
      (flags (__init__ None [])).
Proof.
  apply (load_stops_at_refused_key
           [("agent_tone"%string, [Variant (Some "casual"%string)])]
           [("aggressive_capture"%string, [Enabled true; RolloutPercentage 100])]
           "new_flag" [Enabled true; Other "colour"]
           (flags (__init__ None []))).
  - reflexivity.
  - vm_compute. reflexivity.
Defined.

Lemma load_items_frame rest : forall fl n,
  forallb (fun e => negb (String.eqb (fst e) n)) rest = true ->
  load_items rest fl !! n = fl !! n.
Proof.
  induction rest as [|[m d] rest IH]; intros fl n Hr; simpl in *;
    [reflexivity |].
  apply andb_true_iff in Hr. destruct Hr as [Hm Hr].
  apply negb_true_iff, String.eqb_neq in Hm.
  destruct (fl !! m) as [c|].
  - rewrite (IH _ n Hr). apply lookup_insert_ne. exact Hm.
  - destruct (FlagConfig_kwargs _ d); [| reflexivity].
    rewrite (IH _ n Hr). apply lookup_insert_ne. exact Hm.
Qed.

Lemma setattr_fold_enabled data : forall c,
  sets_key (Enabled true) data = false ->
  enabled (fold_left setattr data c) = enabled c.
Proof.
  induction data as [|f rest IH]; intros c H; simpl in *; [reflexivity |].
  apply orb_false_iff in H. destruct H as [Hf Hrest].
  rewrite (IH _ Hrest). destruct f; simpl in *; congruence.
Qed.

Lemma setattr_fold_rollout data : forall c,
  sets_key (RolloutPercentage 0) data = false ->
  rollout_percentage (fold_left setattr data c) = rollout_percentage c.
Proof.
  induction data as [|f rest IH]; intros c H; simpl in *; [reflexivity |].
  apply orb_false_iff in H. destruct H as [Hf Hrest].
  rewrite (IH _ Hrest). destruct f; simpl in *; congruence.
Qed.

Lemma setattr_fold_targets data : forall c,
  sets_key (TargetUsers []) data = false ->
  target_users (fold_left setattr data c) = target_users c.
Proof.
  induction data as [|f rest IH]; intros c H; simpl in *; [reflexivity |].
  apply orb_false_iff in H. destruct H as [Hf Hrest].
  rewrite (IH _ Hrest). destruct f; simpl in *; congruence.
Qed.

Lemma setattr_fold_variant data : forall c,
  sets_key (Variant None) data = false ->
  variant (fold_left setattr data c) = variant c.
Proof.
  induction data as [|f rest IH]; intros c H; simpl in *; [reflexivity |].
  apply orb_false_iff in H. destruct H as [Hf Hrest].
  rewrite (IH _ Hrest). destruct f; simpl in *; congruence.
Qed.

(** X11. A flag that a document creates is off unless the document says
    [enabled]: without that key the dataclass default (false) stands, and
    [is_enabled] is false for every caller, whatever percentage and
    target users the document gives. *)
Theorem file_flag_is_off_unless_enabled
    (self : FeatureFlagManager) (n : string) (data : list field)
    (rest : document) (io : Inputs) (user_id : option string)
    (context : option (list (string * string))) :
  flags self !! n = None ->
  existsb refused_key data = false ->
  sets_key (Enabled true) data = false ->
  forallb (fun e => negb (String.eqb (fst e) n)) rest = true ->
  is_Some (flags (_load_from_file self (Document ((n, data) :: rest))) !! n)
  /\ fst (is_enabled (_load_from_file self (Document ((n, data) :: rest)))
            io n user_id context) = false.
Proof.
  intros Hn Hok Hen Hrest.
  assert (Hl : flags (_load_from_file self (Document ((n, data) :: rest))) !! n
               = Some (fold_left setattr data (FlagConfig_init n false 0 None ""))).
  { simpl. rewrite Hn, (kwargs_accepted data _ Hok).
    rewrite (load_items_frame rest _ n Hrest). apply lookup_insert_eq. }
  split; [rewrite Hl; eexists; reflexivity |].
  unfold is_enabled. rewrite Hl.
  rewrite (setattr_fold_enabled data _ Hen). reflexivity.
Qed.

Lemma file_flag_is_off_unless_enabled_witness :
  fst (is_enabled
         (_load_from_file (__init__ None [])
            (Document [("new_checkout"%string,
                        [RolloutPercentage 100; TargetUsers ["vip"%string]])]))
         (mkInputs "t" 0) "new_checkout" (Some "vip"%string) None) = false.
Proof.
  apply (file_flag_is_off_unless_enabled (__init__ None []) "new_checkout"
           [RolloutPercentage 100; TargetUsers ["vip"%string]] []
           (mkInputs "t" 0) (Some "vip"%string) None);
    vm_compute; reflexivity.
Defined.

(** X12. A document entry for a flag that exists is merged into it: the
    flag stays in the registry, and [enabled], the percentage, the target
    users and the variant keep their value when the entry has no key for
    them. *)
Theorem file_merge_keeps_unset_fields
    (fl : gmap string FlagConfig) (n : string) (c : FlagConfig)
    (data : list field) (rest : document) :
  fl !! n = Some c ->
  forallb (fun e => negb (String.eqb (fst e) n)) rest = true ->
  exists c',
    load_items ((n, data) :: rest) fl !! n = Some c'
    /\ (sets_key (Enabled true) data = false -> enabled c' = enabled c)
    /\ (sets_key (RolloutPercentage 0) data = false ->
        rollout_percentage c' = rollout_percentage c)
    /\ (sets_key (TargetUsers []) data = false ->
        target_users c' = target_users c)
    /\ (sets_key (Variant None) data = false -> variant c' = variant c).
Proof.
  intros Hn Hrest. exists (fold_left setattr data c). split.
  - simpl. rewrite Hn, (load_items_frame rest _ n Hrest).
    apply lookup_insert_eq.
  - repeat split; intros H.
    + apply setattr_fold_enabled, H.
    + apply setattr_fold_rollout, H.
    + apply setattr_fold_targets, H.
    + apply setattr_fold_variant, H.
Qed.

Lemma file_merge_keeps_unset_fields_witness :
  exists c',
    load_items [("agent_tone"%string, [RolloutPercentage 30])]
      (flags (__init__ None [])) !! "agent_tone"%string = Some c'
    /\ variant c' = Some "professional"%string.
Proof.
  destruct (file_merge_keeps_unset_fields (flags (__init__ None []))
              "agent_tone"
              (FlagConfig_init "agent_tone" true 100
                 (Some "professional"%string)
                 "Agent personality variant for A/B testing")
              [RolloutPercentage 30] [])
    as (c' & Hc' & _ & _ & _ & Hv).
  - vm_compute. reflexivity.
  - reflexivity.
  - exists c'. split; [exact Hc' |]. apply Hv. reflexivity.
Defined.

(** ** The environment has the last word *)

(** X13. A variable FF_<NAME> set to true, 1 or on switches the flag on
    for every caller, and set to false, 0 or off switches it off for every
    caller, whatever the defaults and the configuration file say and
    whoever is in the target users: the flag only has to be known after
    the file is loaded, and no variable read later may name it again. *)
Theorem environment_switch_is_decisive
    (config_file : option file_read) (pre post : list (string * string))
    (NAME value : string) (io : Inputs) (user_id : option string)
    (context : option (list (string * string))) :
  is_Some (flags (__init__ config_file []) !! lower NAME) ->
  forallb (fun kv => negb (names_flag (lower NAME) kv)) post = true ->
  (contains ["true"; "1"; "on"]%string (lower (strip value)) = true ->
   fst (is_enabled
          (__init__ config_file
             ((pre ++ [(("FF_" ++ NAME)%string, value)]) ++ post))
          io (lower NAME) user_id context) = true)
  /\ (contains ["false"; "0"; "off"]%string (lower (strip value)) = true ->
      fst (is_enabled
             (__init__ config_file
                ((pre ++ [(("FF_" ++ NAME)%string, value)]) ++ post))
             io (lower NAME) user_id context) = false).
Proof.
  unfold __init__.
  set (self := match config_file with
               | Some f => _load_from_file (_load_defaults (Manager ∅ [])) f
               | None => _load_defaults (Manager ∅ [])
               end).
  intros Hknown Hpost.
  apply (load_from_env_is_Some [] self), (load_from_env_is_Some pre self)
    in Hknown.
  destruct Hknown as [c Hc].
  assert (Hl : flags (_load_from_env self
                        ((pre ++ [(("FF_" ++ NAME)%string, value)]) ++ post))
                 !! lower NAME
               = env_entry (flags (_load_from_env self pre))
                   (("FF_" ++ NAME)%string, value) !! lower NAME).
  { rewrite (load_from_env_frame post self _ (lower NAME) Hpost).
    rewrite load_from_env_snoc. reflexivity. }
  rewrite env_entry_FF, Hc in Hl.
  split; intros Hv; unfold is_enabled; rewrite Hl.
  - rewrite Hv, lookup_insert_eq. simpl.
    destruct (given user_id && _); reflexivity.
  - assert (Ht : contains ["true"; "1"; "on"]%string (lower (strip value)) = false).
    { apply contains_In in Hv. simpl in Hv.
      destruct Hv as [E | [E | [E | []]]]; rewrite <- E; reflexivity. }
    rewrite Ht, Hv, lookup_insert_eq. reflexivity.
Qed.

Lemma environment_switch_is_decisive_witness :
  fst (is_enabled
         (__init__ (Some (Document [("show_risks_upfront"%string,
                                     [TargetUsers ["vip"%string]])]))
            (([("HOME", "/root")]%string
              ++ [(("FF_" ++ "Show_Risks_Upfront")%string, " OFF "%string)])
             ++ [("FF_AGENT_TONE", "on")]%string))
         (mkInputs "t" 0) (lower "Show_Risks_Upfront") (Some "vip"%string) None)
  = false.
Proof.
  apply (environment_switch_is_decisive
           (Some (Document [("show_risks_upfront"%string,
                             [TargetUsers ["vip"%string]])]))
           [("HOME", "/root")]%string [("FF_AGENT_TONE", "on")]%string
           "Show_Risks_Upfront" " OFF " (mkInputs "t" 0)
           (Some "vip"%string) None).
  - vm_compute. eexists. reflexivity.
  - vm_compute. reflexivity.
  - vm_compute. reflexivity.
Defined.

Lemma env_entry_keeps_fields fl kv g c' :
  env_entry fl kv !! g = Some c' ->
  exists c, fl !! g = Some c /\ same_but_switch c c'.
Proof.
  assert (Hsame : forall c, same_but_switch c c) by (intros c; repeat split).
  destruct kv as [key value]. unfold env_entry.
  destruct (negb (startswith key "FF_")); [intros H; eauto |].
  destruct (fl !! lower (drop_chars 3 key)) as [c|] eqn:Hc; [| intros H; eauto].
  assert (Hins : forall e p,
            <[lower (drop_chars 3 key) := set_switch c e p]> fl !! g = Some c' ->
            exists c0, fl !! g = Some c0 /\ same_but_switch c0 c').
  { intros e p. destruct (decide (lower (drop_chars 3 key) = g)) as [<- | Hne].
    - rewrite lookup_insert_eq. intros [= <-]. exists c.
      split; [exact Hc | repeat split].
    - rewrite lookup_insert_ne by exact Hne. intros H; eauto. }
  split_ifs; intros H; eauto.
Qed.

(** X14. Environment overrides touch the switch only: for every flag, the
    name, the target users, the segments, the variant and the description
    are after [_load_from_env] what they were before, for any
    environment. *)
Theorem environment_keeps_targeting_and_variant
    (environ : list (string * string)) (self : FeatureFlagManager)
    (g : string) (c' : FlagConfig) :
  flags (_load_from_env self environ) !! g = Some c' ->
  exists c, flags self !! g = Some c /\ same_but_switch c c'.
Proof.
  revert c'. induction environ as [|kv environ IH] using rev_ind; intros c' H.
  - exists c'. split; [exact H | repeat split].
  - rewrite load_from_env_snoc in H.
    destruct (env_entry_keeps_fields _ _ _ _ H) as (c1 & H1 & S1).
    destruct (IH c1 H1) as (c & Hc & S).
    exists c. split; [exact Hc |].
    destruct S as (?&?&?&?&?), S1 as (?&?&?&?&?).
    repeat split; congruence.
Qed.

Lemma environment_keeps_targeting_and_variant_witness :
  exists c,
    flags (__init__ None []) !! "agent_tone"%string = Some c
    /\ same_but_switch c
         (mkFlagConfig "agent_tone" true 25 [] []
            (Some "professional"%string)
            "Agent personality variant for A/B testing").
Proof.
  apply (environment_keeps_targeting_and_variant
           [("FF_AGENT_TONE", "off"); ("FF_AGENT_TONE", "25")]%string
           (__init__ None []) "agent_tone").
  vm_compute. reflexivity.
Defined.

(** ** Variants and the audit log *)



Lemma log_evaluation_entries self now f u b r :
  entry_ok (Audit.Entry now f u b r) ->
  Forall entry_ok (audit_log self) ->
  Forall entry_ok (audit_log (_log_evaluation self now f u b r)).
Proof.
  intros He Hlog. rewrite log_evaluation_window. unfold last_n.
  apply Forall_drop, Forall_app. split; [exact Hlog |].
  apply Forall_cons. split; [exact He | apply Forall_nil_2].
Qed.

Lemma is_enabled_entries self io f u ctx :
  Forall entry_ok (audit_log self) ->
  Forall entry_ok (audit_log (snd (is_enabled self io f u ctx))).
Proof.
  intros Hlog. unfold is_enabled.
  destruct (flags self !! f) as [flag|]; [| exact Hlog].
  destruct (negb (enabled flag)); [exact Hlog |].
  destruct u as [[|a u]|]; simpl; try (split_ifs; exact Hlog).
  split_ifs; simpl; try exact Hlog;
    (apply log_evaluation_entries; [| exact Hlog]);
    (split; simpl; [discriminate |]).
  - reflexivity.
  - unfold rollout_reason. simpl. discriminate.
Qed.

(** X16. The audit log never holds an anonymous entry: after any sequence
    of [is_enabled], [get_variant] and [update_flag] calls on a new
    manager, every entry carries a non-empty user id, and every entry
    whose reason is targeted_user records the result true. *)
Theorem audit_entries_are_identified
    (config_file : option file_read) (environ : list (string * string))
    (os : list operation) :
  Forall entry_ok
    (export_audit_log (perform_all (__init__ config_file environ) os)).
Proof.
  unfold export_audit_log, perform_all.
  assert (H0 : Forall entry_ok (audit_log (__init__ config_file environ)))
    by (rewrite init_audit_log; apply Forall_nil_2).
  revert H0. generalize (__init__ config_file environ) as self.
  induction os as [|o os IH]; intros self Hself; simpl; [exact Hself |].
  apply IH. destruct o as [io f u ctx | io f u d | f e p t]; simpl.
  - apply is_enabled_entries, Hself.
  - rewrite get_variant_state. apply is_enabled_entries, Hself.
  - unfold update_flag. destruct (flags self !! f); exact Hself.
Qed.

(** ** The module-level manager *)

(** X17. The module-level manager is created once: after a first
    module-level call [_flag_manager] holds a manager, and every later
    call works on it and ignores the configuration file and environment
    of its own time. *)
Theorem manager_is_created_once
    (g : option FeatureFlagManager) (w1 : Global.Startup) (io1 : Inputs)
    (f1 : string) (u1 : option string) (c1 : option (list (string * string))) :
  (exists m, snd (Global.is_enabled g w1 io1 f1 u1 c1) = Some m
             /\ (g = None ->
                 m = snd (is_enabled (__init__ (Global.config_file w1)
                                               (Global.environ w1))
                                     io1 f1 u1 c1)))
  /\ (forall w2 w2' io f u c,
        Global.is_enabled (snd (Global.is_enabled g w1 io1 f1 u1 c1))
                          w2 io f u c
        = Global.is_enabled (snd (Global.is_enabled g w1 io1 f1 u1 c1))
                            w2' io f u c)
  /\ (forall w2 w2' io f u d,
        Global.get_variant (snd (Global.is_enabled g w1 io1 f1 u1 c1))
                           w2 io f u d
        = Global.get_variant (snd (Global.is_enabled g w1 io1 f1 u1 c1))
                             w2' io f u d).
Proof.
  assert (H : exists m, snd (Global.is_enabled g w1 io1 f1 u1 c1) = Some m
             /\ (g = None ->
                 m = snd (is_enabled (__init__ (Global.config_file w1)
                                               (Global.environ w1))
                                     io1 f1 u1 c1))).
  { unfold Global.is_enabled, Global.get_flag_manager.
    destruct g as [m0|]; simpl.
    - destruct (is_enabled m0 io1 f1 u1 c1) as [b m']. simpl.
      exists m'. split; [reflexivity | discriminate].
    - destruct (is_enabled _ io1 f1 u1 c1) as [b m'] eqn:E. simpl.
      exists m'. split; [reflexivity | intros _; reflexivity]. }
  destruct H as (m & Hm & Hinit). rewrite Hm.
  split; [exists m; split; [reflexivity | exact Hinit] |].
  split; reflexivity.
Qed.

Lemma is_enabled_after_kill m f p t io u ctx :
  is_enabled (update_flag m f (Some false) p t) io f u ctx
  = (false, update_flag m f (Some false) p t).
Proof.
  unfold is_enabled, update_flag.
  destruct (flags m !! f) as [flag|] eqn:Hf.
  - simpl. rewrite lookup_insert_eq. destruct p, t; reflexivity.
  - rewrite Hf. reflexivity.
Qed.

Lemma global_is_enabled_after_kill g w w' io f p t u ctx :
  Global.is_enabled (Global.update_flag g w f (Some false) p t) w' io f u ctx
  = (false, Global.update_flag g w f (Some false) p t).
Proof.
  unfold Global.is_enabled, Global.update_flag.
  destruct (Global.get_flag_manager g w) as [m g0]. simpl.
  rewrite is_enabled_after_kill. reflexivity.
Qed.

(** X18. A kill switch set through the shared manager reaches every later
    module-level call: after [get_flag_manager().update_flag(f,
    enabled=False)], the module-level [is_enabled(f, ...)] is false for
    every caller and [get_variant(f, ...)] returns the default, whatever
    the environment says by then. *)
Theorem global_kill_switch
    (g : option FeatureFlagManager) (w w' : Global.Startup) (io : Inputs)
    (f : string) (p : option Z) (t : option (list string))
    (u : option string) (c : option (list (string * string)))
    (d : string) :
  fst (Global.is_enabled (Global.update_flag g w f (Some false) p t)
                         w' io f u c) = false
  /\ fst (Global.get_variant (Global.update_flag g w f (Some false) p t)
                             w' io f u d) = Returns d.
Proof.
  split.
  - rewrite global_is_enabled_after_kill. reflexivity.
  - unfold Global.get_variant.
    pose proof (global_is_enabled_after_kill g w w' io f p t u None) as H.
    unfold Global.is_enabled in H.
    destruct (Global.get_flag_manager
                (Global.update_flag g w f (Some false) p t) w') as [m g'].
    unfold get_variant.
    destruct (is_enabled m io f u None) as [b m']. simpl in H.
    injection H as -> _. reflexivity.
Qed.

(** * Properties of graph_with_flags.py *)

(** ** Contact normalisation *)






Lemma space_differs a b :
  is_space a = false -> is_space b = true -> Ascii.eqb a b = false.
Proof.
  intros Ha Hb. apply Ascii.eqb_neq. intros ->. congruence.
Qed.

Lemma has_char_lstrip a s :
  is_space a = false -> Graph.has_char a (lstrip s) = Graph.has_char a s.
Proof.
  intros Ha. induction s as [|b s IH]; simpl; [reflexivity |].
  destruct (is_space b) eqn:Hb; [| reflexivity].
  rewrite IH, (space_differs a b Ha Hb). reflexivity.
Qed.

Lemma has_char_rstrip a s :
  is_space a = false -> Graph.has_char a (rstrip s) = Graph.has_char a s.
Proof.
  intros Ha. induction s as [|b s IH]; simpl; [reflexivity |].
  destruct (rstrip s) as [|k kept] eqn:Hr.
  - rewrite <- IH. simpl.
    destruct (is_space b) eqn:Hb; simpl.
    + rewrite (space_differs a b Ha Hb). reflexivity.
    + reflexivity.
  - rewrite <- IH. reflexivity.
Qed.

Lemma has_char_strip a s :
  is_space a = false -> Graph.has_char a (strip s) = Graph.has_char a s.
Proof.
  intros Ha. unfold strip. rewrite has_char_rstrip, has_char_lstrip; auto.
Qed.

Lemma has_at_replace s :
  Graph.has_char "@" (Graph.replace_char "*" "@" s)
  = Graph.has_char "@" s || Graph.has_char "*" s.
Proof.
  induction s as [|c s IH]; cbn [Graph.has_char Graph.replace_char];
    [reflexivity |].
  rewrite IH. destruct (Ascii.eqb c "*") eqn:Hstar.
  - apply Ascii.eqb_eq in Hstar. subst c.
    rewrite !Ascii.eqb_refl.
    change (Ascii.eqb "@" "*") with false.
    destruct (Graph.has_char "@" s); reflexivity.
  - rewrite (Ascii.eqb_sym "*" c), Hstar.
    destruct (Ascii.eqb "@" c), (Graph.has_char "@" s); reflexivity.
Qed.

Lemma no_star_replace s :
  Graph.has_char "*" (Graph.replace_char "*" "@" s) = false.
Proof.
  induction s as [|c s IH]; cbn [Graph.has_char Graph.replace_char];
    [reflexivity |].
  rewrite IH. destruct (Ascii.eqb c "*") eqn:Hstar.
  - reflexivity.
  - rewrite (Ascii.eqb_sym "*" c), Hstar. reflexivity.
Qed.

(** X20. [normalize_email] turns every star into an at sign: its result
    holds no star, and it holds an at sign exactly when the input held an
    at sign or a star, so a masked address counts as an address. *)
Theorem normalize_email_unmasks (email : string) :
  Graph.has_char "*" (Graph.normalize_email email) = false
  /\ Graph.has_char "@" (Graph.normalize_email email)
     = Graph.has_char "@" email || Graph.has_char "*" email.
Proof.
  unfold Graph.normalize_email. destruct email as [|c s]; [split; reflexivity |].
  cbn [truthy negb].
  rewrite !has_char_strip by reflexivity.
  split; [apply no_star_replace | apply has_at_replace].
Qed.

(** ** Lead capture *)

Section Capture.

Variable LISTINGS : list (string * string).
Variable ADVISORS : gmap string string.
Variable send_to_airtable : Graph.Payload.t -> string.

(** X21. [capture_contact_info] posts the lead exactly when the flagged
    criterion holds: a name of two characters or more, and an address
    and a phone number of seven digits when require_both_contacts is on
    for this user, an address or such a number when it is off.  The
    payload carries the status new_lead, and the flag is read once: the
    module-level manager is left as that one [is_enabled] call leaves
    it. *)
Theorem capture_posts_on_the_flagged_criterion
    (g : option FeatureFlagManager) (w : Global.Startup) (io : Inputs)
    (listing_id buyer_name buyer_email buyer_phone : string)
    (contact_preference preferences : string)
    (state : option Graph.State) :
  let r := Graph.capture_contact_info LISTINGS ADVISORS send_to_airtable
             g w io listing_id buyer_name buyer_email buyer_phone
             contact_preference preferences state in
  let require_both :=
    fst (Global.is_enabled g w io "require_both_contacts"
           (Graph.state_user_id state) None) in
  (is_Some (Graph.sent r) <->
   Graph.lead_has_name buyer_name
   && (if require_both
       then Graph.lead_has_email buyer_email
            && Graph.lead_has_phone buyer_phone
       else Graph.lead_has_email buyer_email
            || Graph.lead_has_phone buyer_phone) = true)
  /\ (forall p, Graph.sent r = Some p ->
        Graph.Payload.status p = "new_lead"%string
        /\ Graph.Payload.name p = strip buyer_name
        /\ Graph.reply r
           = (send_to_airtable p ++ " Advisor " ++ Graph.Payload.advisor p
              ++ " has been notified.")%string)
  /\ Graph.manager r
     = snd (Global.is_enabled g w io "require_both_contacts"
              (Graph.state_user_id state) None).
Proof.
  intros r require_both. subst r require_both.
  unfold Graph.capture_contact_info, Graph.lead_has_name,
    Graph.lead_has_email, Graph.lead_has_phone.
  destruct (Global.is_enabled g w io "require_both_contacts"
              (Graph.state_user_id state) None) as [both g'].
  cbn [fst snd].
  destruct (1 <? String.length (strip buyer_name))%nat,
           (Graph.has_char "@" (Graph.normalize_email buyer_email)),
           (Graph.has_valid_phone (Graph.normalize_phone buyer_phone)),
           both;
    cbn [andb orb Graph.sent Graph.manager Graph.reply];
    (split; [split; intros H; try reflexivity; try discriminate;
             try (destruct H; discriminate); try (eexists; reflexivity)
            | split; [| reflexivity]]);
    intros p Hp; try discriminate; injection Hp as <-; repeat split.
Qed.

(** X22. When the lead is not posted the reply names what is missing: the
    list of missing fields the reply is built from is never empty, and
    nothing is sent to the webhook. *)
Theorem capture_always_names_a_missing_field
    (g : option FeatureFlagManager) (w : Global.Startup) (io : Inputs)
    (listing_id buyer_name buyer_email buyer_phone : string)
    (contact_preference preferences : string)
    (state : option Graph.State) :
  let r := Graph.capture_contact_info LISTINGS ADVISORS send_to_airtable
             g w io listing_id buyer_name buyer_email buyer_phone
             contact_preference preferences state in
  let missing :=
    Graph.missing_fields
      (fst (Global.is_enabled g w io "require_both_contacts"
              (Graph.state_user_id state) None))
      (Graph.lead_has_name buyer_name) (Graph.lead_has_email buyer_email)
      (Graph.lead_has_phone buyer_phone) in
  Graph.sent r = None ->
  missing <> []
  /\ Graph.reply r
     = ("I've captured some info, but I still need "
        ++ Graph.join " and " missing
        ++ " to submit this to the advisor.")%string.
Proof.
  intros r missing. subst r missing.
  unfold Graph.capture_contact_info, Graph.lead_has_name,
    Graph.lead_has_email, Graph.lead_has_phone.
  destruct (Global.is_enabled g w io "require_both_contacts"
              (Graph.state_user_id state) None) as [both g'].
  cbn [fst snd].
  destruct (1 <? String.length (strip buyer_name))%nat,
           (Graph.has_char "@" (Graph.normalize_email buyer_email)),
           (Graph.has_valid_phone (Graph.normalize_phone buyer_phone)),
           both;
    cbn [andb orb Graph.sent Graph.reply]; intros H; try discriminate;
    (split; [cbn; discriminate | reflexivity]).
Qed.

(** X23. Turning require_both_contacts on can only hold leads back: a lead
    that is posted while the flag is on for the user is posted by any
    other call with the same contact details, whatever manager, flag
    state, clock and draw that call meets. *)
Theorem strict_rule_only_withholds
    (g g' : option FeatureFlagManager) (w w' : Global.Startup)
    (io io' : Inputs)
    (listing_id buyer_name buyer_email buyer_phone : string)
    (contact_preference preferences : string)
    (state state' : option Graph.State) :
  fst (Global.is_enabled g w io "require_both_contacts"
         (Graph.state_user_id state) None) = true ->
  is_Some (Graph.sent
             (Graph.capture_contact_info LISTINGS ADVISORS send_to_airtable
                g w io listing_id buyer_name buyer_email buyer_phone
                contact_preference preferences state)) ->
  is_Some (Graph.sent
             (Graph.capture_contact_info LISTINGS ADVISORS send_to_airtable
                g' w' io' listing_id buyer_name buyer_email buyer_phone
                contact_preference preferences state')).
Proof.
  unfold Graph.capture_contact_info.
  destruct (Global.is_enabled g w io "require_both_contacts"
              (Graph.state_user_id state) None) as [both g1].
  destruct (Global.is_enabled g' w' io' "require_both_contacts"
              (Graph.state_user_id state') None) as [both' g1'].
  cbn [fst]. intros ->.
  destruct (1 <? String.length (strip buyer_name))%nat,
           (Graph.has_char "@" (Graph.normalize_email buyer_email)),
           (Graph.has_valid_phone (Graph.normalize_phone buyer_phone)),
           both';
    cbn [andb orb Graph.sent]; intros [p Hp]; try discriminate;
    eexists; reflexivity.
Qed.

End Capture.

(** a fresh process with no configuration file, where a lead gives a name
    and a masked address but no phone number *)
Lemma capture_posts_on_the_flagged_criterion_witness :
  is_Some (Graph.sent
             (Graph.capture_contact_info Graph.LISTINGS Graph.ADVISORS
                (fun _ => "Lead successfully sent to Airtable."%string)
                None (Global.mkStartup None []) (mkInputs "t" 0)
                "091784a5" "Ada" "ada*example.com" "" "" "" None)).
Proof.
  apply (capture_posts_on_the_flagged_criterion Graph.LISTINGS Graph.ADVISORS
           (fun _ => "Lead successfully sent to Airtable."%string)
           None (Global.mkStartup None []) (mkInputs "t" 0)
           "091784a5" "Ada" "ada*example.com" "" "" "" None).
  vm_compute. reflexivity.
Defined.

Lemma capture_always_names_a_missing_field_witness :
  Graph.reply
    (Graph.capture_contact_info Graph.LISTINGS Graph.ADVISORS
       (fun _ => "Lead successfully sent to Airtable."%string)
       None (Global.mkStartup None [("FF_REQUIRE_BOTH_CONTACTS", "true")]%string)
       (mkInputs "t" 0)
       "091784a5" "Ada" "ada@example.com" "555-01" "" "" None)
  = "I've captured some info, but I still need your phone number to submit this to the advisor."%string.
Proof.
  apply (capture_always_names_a_missing_field Graph.LISTINGS Graph.ADVISORS
           (fun _ => "Lead successfully sent to Airtable."%string)
           None
           (Global.mkStartup None [("FF_REQUIRE_BOTH_CONTACTS", "true")]%string)
           (mkInputs "t" 0)
           "091784a5" "Ada" "ada@example.com" "555-01" "" "" None).
  vm_compute. reflexivity.
Defined.

Lemma strict_rule_only_withholds_witness :
  is_Some (Graph.sent
             (Graph.capture_contact_info Graph.LISTINGS Graph.ADVISORS
                (fun _ => "Lead successfully sent to Airtable."%string)
                None (Global.mkStartup None []) (mkInputs "t" 0)
                "Tax" "Ada" "ada@example.com" "(555) 010-2030" "" "" None)).
Proof.
  apply (strict_rule_only_withholds Graph.LISTINGS Graph.ADVISORS
           (fun _ => "Lead successfully sent to Airtable."%string)
           None None
           (Global.mkStartup None [("FF_REQUIRE_BOTH_CONTACTS", "true")]%string)
           (Global.mkStartup None []) (mkInputs "t" 0) (mkInputs "t" 0)
           "Tax" "Ada" "ada@example.com" "(555) 010-2030" "" "" None None).
  - vm_compute. reflexivity.
  - vm_compute. eexists. reflexivity.
Defined.

(** ** Listing lookup *)

Lemma first_title_match_In input items lid :
  Graph.first_title_match input items = Some lid -> In lid (map fst items).
Proof.
  induction items as [|[i title] rest IH]; simpl; [discriminate |].
  destruct (Graph.is_infix (lower input) (lower title)).
  - intros [= ->]. left. reflexivity.
  - intros H. right. apply IH, H.
Qed.

Lemma empty_is_infix s : Graph.is_infix EmptyString s = true.
Proof. destruct s; reflexivity. Qed.

(** X24. [resolve_listing_id] only ever answers with an id of [LISTINGS];
    an input that is an id once stripped is returned as it is, before
    any title is looked at; and a blank input matches the first title, so
    it resolves to the first listing of the table. *)
Theorem resolve_listing_id_answers_listed_ids
    (LISTINGS : list (string * string)) (input_str : string) :
  (forall lid, Graph.resolve_listing_id LISTINGS input_str = Some lid ->
               In lid (map fst LISTINGS))
  /\ (In (strip input_str) (map fst LISTINGS) ->
      Graph.resolve_listing_id LISTINGS input_str = Some (strip input_str))
  /\ (strip input_str = EmptyString ->
      ~ In EmptyString (map fst LISTINGS) ->
      Graph.resolve_listing_id LISTINGS input_str = head (map fst LISTINGS)).
Proof.
  unfold Graph.resolve_listing_id. split; [| split].
  - intros lid.
    destruct (contains (map fst LISTINGS) (strip input_str)) eqn:Hc.
    + intros [= <-]. apply contains_In, Hc.
    + apply first_title_match_In.
  - intros Hin. apply contains_In in Hin. rewrite Hin. reflexivity.
  - intros -> Hno. apply contains_not_In in Hno. rewrite Hno.
    destruct LISTINGS as [|[lid title] rest]; [reflexivity |].
    simpl. rewrite empty_is_infix. reflexivity.
Qed.

Lemma resolve_listing_id_answers_listed_ids_witness :
  Graph.resolve_listing_id Graph.LISTINGS "   " = Some "453e1744"%string.
Proof.
  apply (resolve_listing_id_answers_listed_ids Graph.LISTINGS "   ").
  - reflexivity.
  - vm_compute. intuition discriminate.
Defined.

Example resolve_by_title_ex :
  (Graph.resolve_listing_id Graph.LISTINGS " 8cf95905 ",
   Graph.resolve_listing_id Graph.LISTINGS "saas hr",
   Graph.resolve_listing_id Graph.LISTINGS "bakery")
  = (Some "8cf95905"%string, Some "dd1ac28d"%string, None).
Proof. vm_compute. reflexivity. Qed.

(** ** From the environment to the tool *)

(** X25. In a process whose configuration names no file and whose
    environment has no variable for require_both_contacts, the built-in
    default stands: the first call of [capture_contact_info] posts the
    lead as soon as it has a name and an address or a phone number, for
    every user. *)
Theorem default_process_takes_one_contact
    (LISTINGS : list (string * string)) (ADVISORS : gmap string string)
    (send_to_airtable : Graph.Payload.t -> string)
    (environ : list (string * string)) (io : Inputs)
    (listing_id buyer_name buyer_email buyer_phone : string)
    (contact_preference preferences : string)
    (state : option Graph.State) :
  forallb (fun kv => negb (names_flag "require_both_contacts" kv)) environ
  = true ->
  is_Some (Graph.sent
             (Graph.capture_contact_info LISTINGS ADVISORS send_to_airtable
                None (Global.mkStartup None environ) io
                listing_id buyer_name buyer_email buyer_phone
                contact_preference preferences state))
  <-> Graph.lead_has_name buyer_name
      && (Graph.lead_has_email buyer_email
          || Graph.lead_has_phone buyer_phone) = true.
Proof.
  intros Henv.
  assert (Hoff : forall u,
            fst (Global.is_enabled None (Global.mkStartup None environ) io
                   "require_both_contacts" u None) = false).
  { intros u. unfold Global.is_enabled, Global.get_flag_manager. simpl.
    destruct (is_enabled (__init__ None environ) io "require_both_contacts"
                u None) as [b m'] eqn:E. simpl.
    assert (Hl : flags (__init__ None environ) !! "require_both_contacts"%string
                 = flags (__init__ None []) !! "require_both_contacts"%string).
    { exact (load_from_env_frame environ (_load_defaults (Manager ∅ [])) []
               "require_both_contacts" Henv). }
    unfold is_enabled in E. rewrite Hl in E.
    vm_compute in E. congruence. }
  unfold Graph.capture_contact_info, Graph.lead_has_name,
    Graph.lead_has_email, Graph.lead_has_phone.
  specialize (Hoff (Graph.state_user_id state)).
  destruct (Global.is_enabled None (Global.mkStartup None environ) io
              "require_both_contacts" (Graph.state_user_id state) None)
    as [both g']. cbn [fst] in Hoff. subst both.
  destruct (1 <? String.length (strip buyer_name))%nat,
           (Graph.has_char "@" (Graph.normalize_email buyer_email)),
           (Graph.has_valid_phone (Graph.normalize_phone buyer_phone));
    cbn [andb orb Graph.sent];
    split; intros H; try reflexivity; try discriminate;
    try (destruct H; discriminate); eexists; reflexivity.
Qed.

Lemma default_process_takes_one_contact_witness :
  is_Some (Graph.sent
             (Graph.capture_contact_info Graph.LISTINGS Graph.ADVISORS
                (fun _ => "Lead successfully sent to Airtable."%string)
                None
                (Global.mkStartup None
                   [("HOME", "/root"); ("FF_AGENT_TONE", "off")]%string)
                (mkInputs "t" 0)
                "Tax" "Ada" "" "555 010 2030" "" "" None)).
Proof.
  apply (default_process_takes_one_contact Graph.LISTINGS Graph.ADVISORS
           (fun _ => "Lead successfully sent to Airtable."%string)
           [("HOME", "/root"); ("FF_AGENT_TONE", "off")]%string (mkInputs "t" 0)
           "Tax" "Ada" "" "555 010 2030" "" "" None).
  - vm_compute. reflexivity.
  - vm_compute. reflexivity.
Defined.

(** ** The listing summary and the flag show_under_contract *)

Lemma prefix_empty s : String.prefix EmptyString s = true.
Proof. destruct s; reflexivity. Qed.

Lemma prefix_append a : forall b c,
  String.prefix (a ++ b) (a ++ c) = String.prefix b c.
Proof.
  induction a as [|x a IH]; intros b c; simpl; [reflexivity |].
  destruct (ascii_dec x x); [apply IH | congruence].
Qed.

Lemma append_empty_r s : (s ++ "")%string = s.
Proof.
  induction s as [|c s IH]; [reflexivity |].
  change (String c s ++ "")%string with (String c (s ++ "")%string).
  rewrite IH. reflexivity.
Qed.

Lemma prefix_of_append a b : String.prefix a (a ++ b) = true.
Proof.
  rewrite <- (append_empty_r a) at 1. rewrite prefix_append.
  apply prefix_empty.
Qed.

Lemma split_lines_cons s : exists l ls, Graph.split_lines s = l :: ls.
Proof.
  induction s as [|c s (l & ls & IH)]; simpl; [eauto |].
  destruct (Ascii.eqb c "010"); [eauto |]. rewrite IH. eauto.
Qed.

Lemma join_cons sep p q rest :
  Graph.join sep (p :: q :: rest)
  = (p ++ sep ++ Graph.join sep (q :: rest))%string.
Proof. reflexivity. Qed.

(** splitting at the line ends and joining again gives the text back *)
Lemma join_split_lines s :
  Graph.join (String "010" EmptyString) (Graph.split_lines s) = s.
Proof.
  induction s as [|c s IH]; [reflexivity |].
  cbn [Graph.split_lines].
  destruct (split_lines_cons s) as (l & ls & Hs). rewrite Hs in *.
  destruct (Ascii.eqb c "010") eqn:Hc.
  - apply Ascii.eqb_eq in Hc. subst c.
    rewrite join_cons, IH. reflexivity.
  - rewrite <- IH. destruct ls as [|l2 ls]; reflexivity.
Qed.

Lemma keep_lines_skipping lines : Graph.keep_lines lines true = [].
Proof. induction lines as [|l lines IH]; simpl; [reflexivity | exact IH]. Qed.

Lemma keep_lines_is_prefix lines :
  exists dropped, lines = Graph.keep_lines lines false ++ dropped.
Proof.
  induction lines as [|l lines (dropped & IH)]; simpl; [exists []; reflexivity |].
  destruct (Graph.is_infix "UNDER CONTRACT:" l).
  - rewrite keep_lines_skipping. exists (l :: lines). reflexivity.
  - exists dropped. simpl. rewrite <- IH. reflexivity.
Qed.

Lemma keep_lines_clean lines :
  Forall (fun l => Graph.is_infix "UNDER CONTRACT:" l = false)
         (Graph.keep_lines lines false).
Proof.
  induction lines as [|l lines IH]; simpl; [apply Forall_nil_2 |].
  destruct (Graph.is_infix "UNDER CONTRACT:" l) eqn:Hl.
  - rewrite keep_lines_skipping. apply Forall_nil_2.
  - apply Forall_cons. split; [exact Hl | exact IH].
Qed.

Lemma keep_lines_all lines :
  forallb (fun l => negb (Graph.is_infix "UNDER CONTRACT:" l)) lines = true ->
  Graph.keep_lines lines false = lines.
Proof.
  induction lines as [|l lines IH]; simpl; [reflexivity |].
  intros H. apply andb_true_iff in H. destruct H as [Hl Hr].
  apply negb_true_iff in Hl. rewrite Hl, (IH Hr). reflexivity.
Qed.

Lemma join_prefix sep kept : forall dropped,
  String.prefix (Graph.join sep kept) (Graph.join sep (kept ++ dropped)) = true.
Proof.
  induction kept as [|p kept IH]; intros dropped; [apply prefix_empty |].
  destruct kept as [|q kept].
  - destruct dropped as [|d dropped]; simpl.
    + rewrite <- (append_empty_r p) at 2. apply prefix_of_append.
    + apply prefix_of_append.
  - change ((p :: q :: kept) ++ dropped) with (p :: q :: (kept ++ dropped)).
    rewrite !join_cons, !prefix_append. apply (IH dropped).
Qed.

(** X26. [list_all_listings] with show_under_contract on returns the
    summary as it is.  With the flag off it cuts the summary at the first
    line that holds UNDER CONTRACT: the result is a prefix of the summary,
    built from lines that do not hold the marker, and a summary without
    such a line comes back whole. *)
Theorem list_all_listings_cuts_at_the_marker
    (g : option FeatureFlagManager) (w : Global.Startup) (io : Inputs)
    (summary : string) (state : option Graph.State) :
  let on := fst (Global.is_enabled g w io "show_under_contract"
                   (Graph.state_user_id state) None) in
  let shown := fst (Graph.list_all_listings g w io summary state) in
  (on = true -> shown = summary)
  /\ (on = false ->
      String.prefix shown summary = true
      /\ (exists kept,
            shown = Graph.join (String "010" EmptyString) kept
            /\ Forall (fun l => Graph.is_infix "UNDER CONTRACT:" l = false) kept)
      /\ (forallb (fun l => negb (Graph.is_infix "UNDER CONTRACT:" l))
                  (Graph.split_lines summary) = true ->
          shown = summary)).
Proof.
  intros on shown. subst on shown. unfold Graph.list_all_listings.
  destruct (Global.is_enabled g w io "show_under_contract"
              (Graph.state_user_id state) None) as [on g'].
  cbn [fst]. split; intros ->; cbn [fst]; [reflexivity |].
  split; [| split].
  - destruct (keep_lines_is_prefix (Graph.split_lines summary)) as [dropped Hd].
    rewrite <- (join_split_lines summary) at 2. rewrite Hd at 2.
    apply join_prefix.
  - eexists. split; [reflexivity | apply keep_lines_clean].
  - intros Hall. rewrite (keep_lines_all _ Hall). apply join_split_lines.
Qed.

Lemma list_all_listings_cuts_at_the_marker_witness :
  String.prefix
    (fst (Graph.list_all_listings None
            (Global.mkStartup None [("FF_SHOW_UNDER_CONTRACT", "off")]%string)
            (mkInputs "t" 0) two_section_summary None))
    two_section_summary = true.
Proof.
  apply (list_all_listings_cuts_at_the_marker None
           (Global.mkStartup None [("FF_SHOW_UNDER_CONTRACT", "off")]%string)
           (mkInputs "t" 0) two_section_summary None).
  vm_compute. reflexivity.
Defined.

Example list_all_listings_ex :
  fst (Graph.list_all_listings None
         (Global.mkStartup None [("FF_SHOW_UNDER_CONTRACT", "off")]%string)
         (mkInputs "t" 0) two_section_summary None)
  = "AVAILABLE LISTINGS:

FOR SALE:
• Remote US Tax & Bookkeeping Firm... ($1.2M) - Remote - 3.1X
"%string.
Proof. vm_compute. reflexivity. Qed.

(** ** Routing after the concierge tools *)

Lemma marker_is_infix marker rest :
  Graph.is_infix marker (marker ++ rest) = true.
Proof.
  destruct (marker ++ rest)%string eqn:E; unfold Graph.is_infix;
    fold Graph.is_infix; rewrite <- E, prefix_of_append; reflexivity.
Qed.

(** X27. What [handoff_to_listing_agent] returns always takes the
    conversation to the listing and booking agent: when the last message
    holds that text, [route_after_concierge_tools] answers
    listing_booking_agent for every listing id, known or not, without
    reading a flag, so the module-level manager is not touched. *)
Theorem handoff_reaches_the_booking_agent
    (LISTINGS : list (string * string)) (g : option FeatureFlagManager)
    (w : Global.Startup) (io : Inputs) (state : Graph.State)
    (last : Graph.Message) (listing_id : string) :
  Graph.from_end 1 (Graph.messages state) = Some last ->
  Graph.content last = Graph.handoff_to_listing_agent LISTINGS listing_id ->
  Graph.route_after_concierge_tools g w io state
  = (Graph.Goto Graph.listing_booking_agent, g).
Proof.
  intros Hlast Hcontent. unfold Graph.route_after_concierge_tools.
  rewrite Hlast, Hcontent. unfold Graph.handoff_to_listing_agent.
  rewrite marker_is_infix. reflexivity.
Qed.

Lemma handoff_reaches_the_booking_agent_witness :
  Graph.route_after_concierge_tools None (Global.mkStartup None [])
    (mkInputs "t" 0) handoff_state
  = (Graph.Goto Graph.listing_booking_agent, None).
Proof.
  apply (handoff_reaches_the_booking_agent Graph.LISTINGS None
           (Global.mkStartup None []) (mkInputs "t" 0) handoff_state
           (Graph.mkMessage
              (Graph.handoff_to_listing_agent Graph.LISTINGS "tax") None)
           "tax").
  - reflexivity.
  - reflexivity.
Defined.

(** X28. With auto_handoff_after_details switched off through the shared
    manager, the route never hands off on its own: for a conversation
    whose last message does not hold the handoff text the answer is
    concierge_agent, whatever tool was called before and however short
    the conversation is. *)
Theorem no_auto_handoff_after_kill_switch
    (g : option FeatureFlagManager) (w w' : Global.Startup) (io : Inputs)
    (p : option Z) (t : option (list string)) (state : Graph.State)
    (last : Graph.Message) :
  Graph.from_end 1 (Graph.messages state) = Some last ->
  Graph.is_infix "HANDOFF_LISTING:" (Graph.content last) = false ->
  fst (Graph.route_after_concierge_tools
         (Global.update_flag g w "auto_handoff_after_details"
            (Some false) p t)
         w' io state)
  = Graph.Goto Graph.concierge_agent.
Proof.
  intros Hlast Hno. unfold Graph.route_after_concierge_tools.
  rewrite Hlast, Hno, global_is_enabled_after_kill. reflexivity.
Qed.

Lemma no_auto_handoff_after_kill_switch_witness :
  fst (Graph.route_after_concierge_tools
         (Global.update_flag None (Global.mkStartup None [])
            "auto_handoff_after_details" (Some false) None None)
         (Global.mkStartup None []) (mkInputs "t" 0) details_state)
  = Graph.Goto Graph.concierge_agent.
Proof.
  apply (no_auto_handoff_after_kill_switch None (Global.mkStartup None [])
           (Global.mkStartup None []) (mkInputs "t" 0) None None details_state
           (Graph.mkMessage
              "**Remote US Tax & Bookkeeping Firm** (ID: 091784a5)" None)).
  - reflexivity.
  - vm_compute. reflexivity.
Defined.

Example auto_handoff_default_ex :
  fst (Graph.route_after_concierge_tools None (Global.mkStartup None [])
         (mkInputs "t" 0) details_state)
  = Graph.Goto Graph.listing_booking_agent.
Proof. vm_compute. reflexivity. Qed.

(** X29. The route reads the last two messages without checking how many
    there are: on an empty conversation it raises IndexError before any
    flag is read, and on a conversation of one message that does not
    hold the handoff text it raises IndexError whenever
    auto_handoff_after_details is on for the user. *)
Theorem route_needs_two_messages
    (g : option FeatureFlagManager) (w : Global.Startup) (io : Inputs)
    (state : Graph.State) :
  (Graph.messages state = [] ->
   Graph.route_after_concierge_tools g w io state = (Graph.IndexError, g))
  /\ (forall only,
        Graph.messages state = [only] ->
        Graph.is_infix "HANDOFF_LISTING:" (Graph.content only) = false ->
        fst (Global.is_enabled g w io "auto_handoff_after_details"
               (Some (default EmptyString (Graph.user_id state))) None)
        = true ->
        fst (Graph.route_after_concierge_tools g w io state)
        = Graph.IndexError).
Proof.
  unfold Graph.route_after_concierge_tools. split.
  - intros ->. reflexivity.
  - intros only -> Hno Hon. cbn [Graph.from_end rev app nth_error Nat.sub].
    rewrite Hno.
    destruct (Global.is_enabled g w io "auto_handoff_after_details"
                (Some (default EmptyString (Graph.user_id state))) None)
      as [on g'].
    cbn [fst] in Hon. subst on. reflexivity.
Qed.

Lemma route_needs_two_messages_witness :
  fst (Graph.route_after_concierge_tools None (Global.mkStartup None [])
         (mkInputs "t" 0) single_message_state)
  = Graph.IndexError.
Proof.
  destruct (route_needs_two_messages None (Global.mkStartup None [])
              (mkInputs "t" 0) single_message_state) as [_ Hone].
  apply (Hone (Graph.mkMessage "hello" None)).
  - reflexivity.
  - vm_compute. reflexivity.
  - vm_compute. reflexivity.
Defined.

Lemma registry_keys_are_fixed_witness :
  is_Some (flags (perform_all half_manager busy_operations) !! "beta"%string)
  /\ ~ is_Some (flags (perform_all half_manager busy_operations)
                  !! "other"%string).
Proof.
  split.
  - apply (registry_keys_are_fixed half_manager busy_operations "beta").
    vm_compute. eexists. reflexivity.
  - intros H.
    apply (registry_keys_are_fixed half_manager busy_operations "other") in H.
    vm_compute in H. destruct H as [x Hx]. discriminate Hx.
Defined.

Lemma manager_is_created_once_witness :
  Global.is_enabled
    (snd (Global.is_enabled None (Global.mkStartup None []) (mkInputs "t" 0)
            "agent_tone" None None))
    (Global.mkStartup None [("FF_AGENT_TONE", "off")]%string)
    (mkInputs "t" 1) "agent_tone" None None
  = Global.is_enabled
      (snd (Global.is_enabled None (Global.mkStartup None []) (mkInputs "t" 0)
              "agent_tone" None None))
      (Global.mkStartup None []) (mkInputs "t" 1) "agent_tone" None None.
Proof.
  destruct (manager_is_created_once None (Global.mkStartup None [])
              (mkInputs "t" 0) "agent_tone" None None) as (_ & Hsame & _).
  apply Hsame.
Defined.
